(** * QCoDeSStreamlit: a shallow embedding of [main.py]

    The module is a Streamlit script over three collaborators: an SQLite
    file, the QCoDeS experiment loader and Plotly.  The embedding keeps the
    functions of the module under their own names and threads one explicit
    process state through them.  Exceptions are values of [outcome]. *)

From Stdlib Require Import ZArith List String Ascii Bool Lia QArith_base Qround
  Sorted.
From stdpp Require Import base option list gmap strings.

Local Open Scope Z_scope.
Local Open Scope string_scope.

(** ** Python outcomes *)

Inductive exn : Type :=
| NameError (name : string)
| UnboundLocalError (name : string)
| ValueError (msg : string)
| KeyError (key : string)
| TypeError (msg : string)
| AttributeError (attr : string)
| DatabaseError (msg : string).

Inductive outcome (A : Type) : Type :=
| Return (a : A)
| Raise (e : exn).
Arguments Return {A} a.
Arguments Raise {A} e.

(** ** Tabular data *)

(** A value held in a table cell.  Reals are carried as rationals; a BLOB is
    its list of byte values. *)
Inductive cell : Type :=
| CNull
| CInt (z : Z)
| CReal (q : Q)
| CText (s : string)
| CBlob (b : list Z).

(** A pandas [DataFrame] after [reset_index]: named columns over rows. *)
Record dataframe : Type := {
  df_columns : list string;
  df_rows : list (list cell)
}.

Fixpoint index_of (name : string) (cols : list string) : option nat :=
  match cols with
  | [] => None
  | c :: cs => if String.eqb c name then Some O
               else S <$> index_of name cs
  end.

Definition has_column (df : dataframe) (name : string) : bool :=
  bool_decide (is_Some (index_of name (df_columns df))).

(** [df[name]]: the values of one column, row by row. *)
Definition df_column (df : dataframe) (name : string) : option (list cell) :=
  i ← index_of name (df_columns df);
  Some (map (fun r => nth i r CNull) (df_rows df)).

(** [df.empty]: true when either axis has length zero. *)
Definition df_empty (df : dataframe) : bool :=
  match df_columns df, df_rows df with
  | [], _ | _, [] => true
  | _, _ => false
  end.

(** ** The SQLite file *)

(** A table: declared columns (name, declared type) and rows of cells. *)
Record table : Type := {
  tbl_columns : list (string * string);
  tbl_rows : list (list cell)
}.

(** The two statements the module sends.  [CreateRunsIfNotExists] is the
    text of lines 54-58, [SelectRunsAfter n] is the f-string of line 71,
    [SELECT * FROM runs WHERE id > n]. *)
Inductive sql_stmt : Type :=
| CreateRunsIfNotExists
| SelectRunsAfter (last_index : Z).

Inductive db_event : Type :=
| EvConnect (path : string)
| EvExecute (path : string) (stmt : sql_stmt)
| EvCommit (path : string)
| EvClose (path : string).

(** Columns of the [runs] table as line 55-58 declares them. *)
Definition runs_schema : list (string * string) :=
  [("id", "INTEGER PRIMARY KEY"); ("timestamp", "DATETIME");
   ("parameters", "TEXT"); ("data", "BLOB")].

(** ** Plotly figures *)

Inductive chart_kind : Type := Scatter | Line | Surface | Histogram.

(** The [color] argument: a column name (line 119, 124) or a series taken
    from the frame by the caller (line 243). *)
Inductive color_arg : Type :=
| ColorColumn (name : string)
| ColorSeries (values : list cell).

Record layout : Type := {
  template : string;
  hovermode : string;
  margin : Z * Z * Z * Z  (* l, r, t, b *)
}.

Record figure : Type := {
  fig_kind : chart_kind;
  fig_data : dataframe;
  fig_x : option string;
  fig_y : option string;
  fig_z : list string;
  fig_color : option color_arg;
  fig_line_group : option string;
  fig_hover_data : list string;
  fig_nbins : option nat;
  fig_labels : gmap string string;
  fig_color_scale : option string;
  fig_layout : option layout
}.

(** ** Streamlit: session state and rendered elements *)

Inductive sval : Type :=
| SNone
| SFrame (df : dataframe)
| SList (l : list string).

Inductive element : Type :=
| SidebarHeader (text : string)
| SidebarNumberInput (label : string) (value : Z)
| SidebarButton (label : string)
| SidebarWrite (prefix : string) (value : sval)
| SidebarRadio (label : string) (options : list string)
| SidebarSelectbox (label : string) (options : list string) (index : nat)
| PlotlyChart (fig : figure)
| DataframeView (v : sval)
| LineChartView (df : dataframe) (index_column : string)
| ExceptionBox (x : exn).

(** ** Process state *)

(** One entry of the [st.cache_data] store: the value and when it was put. *)
Record cache_entry : Type := {
  ce_value : dataframe * Z;
  ce_stored : Z
}.

Record state : Type := {
  files : gmap string (gmap string table);  (* path -> database *)
  db_log : list db_event;                   (* newest last *)
  cache : gmap Z cache_entry;               (* keyed by the argument *)
  now : Z;                                  (* clock, in seconds *)
  session_state : gmap string sval;
  ui : list element                         (* rendered so far, in order *)
}.

Definition set_files (f : gmap string (gmap string table)) (s : state) : state :=
  {| files := f; db_log := db_log s; cache := cache s; now := now s;
     session_state := session_state s; ui := ui s |}.
Definition log_db (e : db_event) (s : state) : state :=
  {| files := files s; db_log := db_log s ++ [e]; cache := cache s;
     now := now s; session_state := session_state s; ui := ui s |}.
Definition set_cache (c : gmap Z cache_entry) (s : state) : state :=
  {| files := files s; db_log := db_log s; cache := c; now := now s;
     session_state := session_state s; ui := ui s |}.
Definition set_now (t : Z) (s : state) : state :=
  {| files := files s; db_log := db_log s; cache := cache s; now := t;
     session_state := session_state s; ui := ui s |}.
Definition set_session (m : gmap string sval) (s : state) : state :=
  {| files := files s; db_log := db_log s; cache := cache s; now := now s;
     session_state := m; ui := ui s |}.
Definition render (e : element) (s : state) : state :=
  {| files := files s; db_log := db_log s; cache := cache s; now := now s;
     session_state := session_state s; ui := ui s ++ [e] |}.

(** ** The state-and-exception monad *)

Definition M (A : Type) : Type := state -> outcome A * state.

Definition ret {A} (a : A) : M A := fun s => (Return a, s).
Definition raise {A} (e : exn) : M A := fun s => (Raise e, s).
Definition bind {A B} (m : M A) (k : A -> M B) : M B :=
  fun s => match m s with
           | (Return a, s') => k a s'
           | (Raise e, s') => (Raise e, s')
           end.
Definition lift {A} (o : outcome A) : M A := fun s => (o, s).
Definition modify (f : state -> state) : M unit := fun s => (Return tt, f s).
Definition gets {A} (f : state -> A) : M A := fun s => (Return (f s), s).

#[global] Instance M_ret : MRet M := @ret.
#[global] Instance M_bind : MBind M := fun A B k m => bind m k.
#[global] Instance M_fmap : FMap M := fun A B f m =>
  bind m (fun a => ret (f a)).

(** ** Module globals (lines 1-42 and the [def]s) *)

Inductive pyobj : Type :=
| PyStr (s : string)
| PyModule (name : string)
| PyFunction (name : string)
| PyOther (descr : string).

Definition QCODES_DB_PATH : string :=
  "/Users/albert-mac/Code/GitHub/QCoDeSStreamlit/020-1Shankar_2024-09-15_01.db".

(** Every name the module binds at top level, in the order it binds them.
    The only path constant is [QCODES_DB_PATH] (line 41). *)
Definition module_bindings : list (string * pyobj) :=
  [("st", PyModule "streamlit"); ("pd", PyModule "pandas");
   ("px", PyModule "plotly.express"); ("go", PyModule "plotly.graph_objects");
   ("load_by_id", PyFunction "qcodes.dataset.data_set.load_by_id");
   ("sqlite3", PyModule "sqlite3"); ("sleep", PyFunction "time.sleep");
   ("initialise_database", PyFunction "qcodes.dataset.initialise_database");
   ("load_or_create_experiment",
      PyFunction "qcodes.dataset.load_or_create_experiment");
   ("qcodes", PyModule "qcodes"); ("pint", PyModule "pint");
   ("ureg", PyOther "pint.UnitRegistry"); ("SI", PyOther "class SI");
   ("QCODES_DB_PATH", PyStr QCODES_DB_PATH);
   ("init_database", PyFunction "init_database");
   ("fetch_live_data", PyFunction "fetch_live_data");
   ("realtime_plotting", PyFunction "realtime_plotting");
   ("create_plot", PyFunction "create_plot");
   ("qcodes_integration", PyFunction "qcodes_integration")].

Definition module_globals : gmap string pyobj := list_to_map module_bindings.

(** The builtins the module refers to. No builtin is called [DB_PATH]. *)
Definition builtins : list string :=
  ["float"; "list"; "len"; "dict"; "ValueError"; "__name__"].

(** Reading a name that is not local: module globals, then builtins, else
    [NameError]. *)
Definition load_global (g : gmap string pyobj) (name : string) : outcome pyobj :=
  match g !! name with
  | Some v => Return v
  | None => if bool_decide (name ∈ builtins) then Return (PyOther name)
            else Raise (NameError name)
  end.

(** ** sqlite3 and pandas.read_sql *)

(** [sqlite3.connect(path)]: opens the file, creating an empty database
    when there is none. *)
Definition sqlite3_connect (path : pyobj) : M string :=
  match path with
  | PyStr p =>
      modify (log_db (EvConnect p));;
      fs ← gets files;
      (match fs !! p with
       | Some _ => mret tt
       | None => modify (set_files (<[p := ∅]> fs))
       end);;
      mret p
  | _ => raise (TypeError "expected str, bytes or os.PathLike object")
  end.

Definition the_db (conn : string) (s : state) : gmap string table :=
  default ∅ (files s !! conn).

(** [CREATE TABLE IF NOT EXISTS runs (...)]: a table named [runs] that is
    already there is left as it is. *)
Definition execute_create_runs (conn : string) : M unit :=
  modify (log_db (EvExecute conn CreateRunsIfNotExists));;
  db ← gets (the_db conn);
  match db !! "runs" with
  | Some _ => mret tt
  | None =>
      fs ← gets files;
      modify (set_files
        (<[conn := <["runs" := {| tbl_columns := runs_schema;
                                  tbl_rows := [] |}]> db]> fs))
  end.

Definition commit (conn : string) : M unit := modify (log_db (EvCommit conn)).
Definition close (conn : string) : M unit := modify (log_db (EvClose conn)).

(** [c > n] in SQLite, by storage class: NULL compares to nothing, numbers
    by value, TEXT and BLOB are above every number. *)
Definition cell_gt (c : cell) (n : Z) : bool :=
  match c with
  | CNull => false
  | CInt z => Z.ltb n z
  | CReal q => Z.ltb (n * Z.pos (Qden q)) (Qnum q)
  | CText _ | CBlob _ => true
  end.

(** [pd.read_sql("SELECT * FROM runs WHERE id > n", conn)]: the rows are
    scanned in stored order and those with [id > n] are kept. *)
Definition read_sql_runs_after (n : Z) (conn : string) : M dataframe :=
  modify (log_db (EvExecute conn (SelectRunsAfter n)));;
  db ← gets (the_db conn);
  match db !! "runs" with
  | None => raise (DatabaseError "no such table: runs")
  | Some t =>
      match index_of "id" (tbl_columns t).*1 with
      | None => raise (DatabaseError "no such column: id")
      | Some i =>
          mret {| df_columns := (tbl_columns t).*1;
                  df_rows := List.filter (fun r => cell_gt (nth i r CNull) n)
                                         (tbl_rows t) |}
      end
  end.

#[global] Instance outcome_ret : MRet outcome := @Return.
#[global] Instance outcome_bind : MBind outcome := fun A B k o =>
  match o with Return a => k a | Raise e => Raise e end.
#[global] Instance outcome_fmap : FMap outcome := fun A B f o =>
  match o with Return a => Return (f a) | Raise e => Raise e end.

Definition int_of_cell (c : cell) : outcome Z :=
  match c with
  | CInt z => Return z
  | _ => Raise (TypeError "id is not an integer")
  end.

(** [series.max()] on a column of integers.  Line 75 reaches it only when
    the frame is not empty. *)
Definition series_max (l : list cell) : outcome Z :=
  match l with
  | [] => Raise (ValueError "max of an empty series")
  | c :: cs =>
      foldl (fun acc c' => a ← acc; z ← int_of_cell c'; Return (Z.max a z))
            (int_of_cell c) cs
  end.

(** [df[name]] as an outcome: a missing column is a [KeyError]. *)
Definition getitem (df : dataframe) (name : string) : outcome (list cell) :=
  match df_column df name with
  | Some v => Return v
  | None => Raise (KeyError name)
  end.

(** ** [init_database] (lines 47-60) *)

Definition init_database : M unit :=
  path ← lift (load_global module_globals "QCODES_DB_PATH");
  conn ← sqlite3_connect path;
  execute_create_runs conn;;
  commit conn;;
  close conn.

(** ** [fetch_live_data] (lines 62-75) *)

(** The function under the decorator, run in the globals [g]. *)
Definition fetch_live_data_body (g : gmap string pyobj) (last_index : Z)
  : M (dataframe * Z) :=
  path ← lift (load_global g "DB_PATH");
  conn ← sqlite3_connect path;
  new_data ← read_sql_runs_after last_index conn;
  close conn;;
  if negb (df_empty new_data)
  then ids ← lift (getitem new_data "id");
       m ← lift (series_max ids);
       mret (new_data, m)
  else mret (new_data, last_index).

(** [st.cache_data(ttl=...)]: results are kept per argument with the time
    they were stored; an entry answers calls while [now < stored + ttl].
    A call that raises stores nothing. *)
Definition cache_data (ttl : Z) (f : Z -> M (dataframe * Z)) (arg : Z)
  : M (dataframe * Z) :=
  fun s =>
    let run :=
      match f arg s with
      | (Return v, s') =>
          (Return v,
           set_cache (<[arg := {| ce_value := v; ce_stored := now s' |}]>
                        (cache s')) s')
      | (Raise e, s') => (Raise e, s')
      end in
    match cache s !! arg with
    | Some e => if Z.ltb (now s) (ce_stored e + ttl)
                then (Return (ce_value e), s) else run
    | None => run
    end.

Definition fetch_live_data : Z -> M (dataframe * Z) :=
  cache_data 300 (fetch_live_data_body module_globals).

(** ** Plotly (the calls the module makes) *)

(** Plotly Express rejects an argument that names no column of the frame. *)
Definition px_columns (data : dataframe) (names : list string) : outcome unit :=
  match List.filter (fun n => negb (has_column data n)) names with
  | [] => Return tt
  | n :: _ => Raise (ValueError n)
  end.

Definition color_names (c : option color_arg) : list string :=
  match c with Some (ColorColumn n) => [n] | _ => [] end.

Definition px_scatter (data : dataframe) (x y : string)
    (color : option color_arg) (hover_data : list string)
    (labels : gmap string string) (scale : option string) : outcome figure :=
  px_columns data ([x; y] ++ hover_data ++ color_names color);;
  Return {| fig_kind := Scatter; fig_data := data; fig_x := Some x;
            fig_y := Some y; fig_z := []; fig_color := color;
            fig_line_group := None; fig_hover_data := hover_data;
            fig_nbins := None; fig_labels := labels;
            fig_color_scale := scale; fig_layout := None |}.

Definition px_line (data : dataframe) (x y : string)
    (line_group : option string) (color : option color_arg)
    (labels : gmap string string) : outcome figure :=
  px_columns data ([x; y] ++ option_list line_group ++ color_names color);;
  Return {| fig_kind := Line; fig_data := data; fig_x := Some x;
            fig_y := Some y; fig_z := []; fig_color := color;
            fig_line_group := line_group; fig_hover_data := [];
            fig_nbins := None; fig_labels := labels;
            fig_color_scale := None; fig_layout := None |}.

(** [go.Figure(data=[go.Surface(z=data[cols].values)])]. *)
Definition go_surface (data : dataframe) (cols : list string) : outcome figure :=
  match List.filter (fun n => negb (has_column data n)) cols with
  | n :: _ => Raise (KeyError n)
  | [] =>
      Return {| fig_kind := Surface; fig_data := data; fig_x := None;
                fig_y := None; fig_z := cols; fig_color := None;
                fig_line_group := None; fig_hover_data := [];
                fig_nbins := None; fig_labels := ∅;
                fig_color_scale := None; fig_layout := None |}
  end.

Definition px_histogram (data : dataframe) (x : string) (nbins : nat)
  : outcome figure :=
  px_columns data [x];;
  Return {| fig_kind := Histogram; fig_data := data; fig_x := Some x;
            fig_y := None; fig_z := []; fig_color := None;
            fig_line_group := None; fig_hover_data := [];
            fig_nbins := Some nbins; fig_labels := ∅;
            fig_color_scale := None; fig_layout := None |}.

Definition update_layout (fig : figure) (l : layout) : figure :=
  {| fig_kind := fig_kind fig; fig_data := fig_data fig; fig_x := fig_x fig;
     fig_y := fig_y fig; fig_z := fig_z fig; fig_color := fig_color fig;
     fig_line_group := fig_line_group fig;
     fig_hover_data := fig_hover_data fig; fig_nbins := fig_nbins fig;
     fig_labels := fig_labels fig; fig_color_scale := fig_color_scale fig;
     fig_layout := Some l |}.

(** What a figure draws from its frame. *)
Definition positional_columns (fig : figure) : list string :=
  option_list (fig_x fig) ++ option_list (fig_y fig).

Definition color_column (fig : figure) : option string :=
  match fig_color fig with Some (ColorColumn n) => Some n | _ => None end.

Definition trace_x (fig : figure) : option (list cell) :=
  x ← fig_x fig; df_column (fig_data fig) x.
Definition trace_y (fig : figure) : option (list cell) :=
  y ← fig_y fig; df_column (fig_data fig) y.

(** ** [create_plot] (lines 111-135; what follows [return fig] is dead) *)

(** The local [fig] is bound by one of the four branches or not at all. *)
Definition create_plot (data : dataframe) (plot_type : string)
  : outcome figure :=
  fig ← (if String.eqb plot_type "散點圖" then
           Some <$> px_scatter data "voltage" "current"
                      (Some (ColorColumn "temperature")) ["frequency"] ∅ None
         else if String.eqb plot_type "線圖" then
           Some <$> px_line data "time" "current" (Some "id")
                      (Some (ColorColumn "parameters")) ∅
         else if String.eqb plot_type "表面圖" then
           Some <$> go_surface data ["voltage"; "current"; "temperature"]
         else if String.eqb plot_type "直方圖" then
           Some <$> px_histogram data "current" 50%nat
         else Return None);
  match fig with
  | None => Raise (UnboundLocalError "fig")
  | Some f =>
      Return (update_layout f {| template := "plotly_dark";
                                 hovermode := "x unified";
                                 margin := (0, 0, 30, 0) |})
  end.

(** ** The QCoDeS data source *)

(** What [to_pandas_dataframe()] gives: the setpoints as a named index
    beside the data columns. *)
Record indexed_frame : Type := {
  index_names : list string;
  index_rows : list (list cell);
  frame : dataframe
}.

(** [.reset_index()]: the index levels become the leading columns. *)
Definition reset_index (f : indexed_frame) : dataframe :=
  {| df_columns := index_names f ++ df_columns (frame f);
     df_rows := zip_with app (index_rows f) (df_rows (frame f)) |}.

(** A loaded run. Both reads of lines 215-216 can fail:
    [to_pandas_dataframe()] raises when there is nothing to build a table
    from, and [parameters] is [None] for a run without parameter names. *)
Record dataset : Type := {
  to_pandas_dataframe : outcome indexed_frame;
  parameters : option string  (* comma-separated names *)
}.

(** [s.split(",")]: the empty string splits into one empty field. *)
Fixpoint split_comma (s : string) : list string :=
  match s with
  | EmptyString => [""]
  | String c rest =>
      if Ascii.eqb c "," then "" :: split_comma rest
      else match split_comma rest with
           | h :: t => String c h :: t
           | [] => [String c ""]
           end
  end.

(** [parameters.split(",")] (line 216): [None] has no [split]. *)
Definition parameters_split (p : option string) : outcome (list string) :=
  match p with
  | Some names => Return (split_comma names)
  | None => Raise (AttributeError "split")
  end.

(** ** Widgets *)

(** What the user did before this run of the script. *)
Record user : Type := {
  typed_run_id : option Z;        (* [None]: the field keeps its default *)
  load_clicked : bool;
  picked : string -> option nat   (* per widget label, the option chosen *)
}.

Definition number_input (label : string) (value : Z) (u : user) : M Z :=
  let v := default value (typed_run_id u) in
  modify (render (SidebarNumberInput label v));;
  mret v.

Definition button (label : string) (u : user) : M bool :=
  modify (render (SidebarButton label));;
  mret (load_clicked u).

(** The option a choice widget returns: the one picked, else the one at
    [index]; [None] when there are no options. *)
Definition chosen (u : user) (label : string) (options : list string)
    (index : nat) : option string :=
  match picked u label ≫= (options !!.) with
  | Some o => Some o
  | None => options !! index
  end.

Definition radio (label : string) (options : list string) (u : user)
  : M (option string) :=
  modify (render (SidebarRadio label options));;
  mret (chosen u label options 0).

Definition selectbox (label : string) (options : list string) (index : nat)
    (u : user) : M (option string) :=
  modify (render (SidebarSelectbox label options index));;
  mret (chosen u label options index).

(** Python truth value of a selection: [None] and [""] are false. *)
Definition truthy (o : option string) : bool :=
  match o with
  | Some s => negb (String.eqb s "")
  | None => false
  end.

Definition as_frame (e : exn) (v : sval) : outcome dataframe :=
  match v with SFrame df => Return df | _ => Raise e end.

Definition as_list (v : sval) : outcome (list string) :=
  match v with
  | SList l => Return l
  | _ => Raise (TypeError "object has no len()")
  end.

Definition session_set (k : string) (v : sval) : M unit :=
  ss ← gets session_state;
  modify (set_session (<[k := v]> ss)).

(** ** [qcodes_integration] (lines 208-253) and the entry point *)

Section Loader.

(** [qcodes.load_by_id]: the external lookup of a run by its identifier.
    Only its result is modelled; what the lookup does to the QCoDeS file is
    outside this embedding. *)
Variable load_by_id : Z -> outcome dataset.

(** [index=1 if len(parameters) > 1 else 0] (lines 231, 239). *)
Definition y_index (params : list string) : nat :=
  if Nat.ltb 1 (length params) then 1%nat else 0%nat.

(** [index=2 if len(parameters) > 2 else 0] (line 240). *)
Definition color_index (params : list string) : nat :=
  if Nat.ltb 2 (length params) then 2%nat else 0%nat.

Definition not_a_frame : exn :=
  ValueError "data_frame argument is not a DataFrame".

(** Lines 229-235. Returns the local [x_param]. *)
Definition line_branch (u : user) (dfv : sval) (params : list string)
  : M (option string) :=
  x_param ← selectbox "選擇 X 軸變數" params 0 u;
  y_param ← selectbox "選擇 Y 軸變數" params (y_index params) u;
  (if truthy x_param && truthy y_param then
     let x := default "" x_param in
     let y := default "" y_param in
     df ← lift (as_frame not_a_frame dfv);
     fig ← lift (px_line df x y None None (<[y := y]> {[x := x]}));
     modify (render (PlotlyChart fig))
   else mret tt);;
  mret x_param.

(** Lines 237-246. Returns the local [x_param]. *)
Definition heat_branch (u : user) (dfv : sval) (params : list string)
  : M (option string) :=
  x_param ← selectbox "選擇 X 軸變數" params 0 u;
  y_param ← selectbox "選擇 Y 軸變數" params (y_index params) u;
  color_param ← selectbox "選擇顏色對應變數" params (color_index params) u;
  (if truthy x_param && truthy y_param && truthy color_param then
     let x := default "" x_param in
     let y := default "" y_param in
     let c := default "" color_param in
     df ← lift (as_frame (TypeError "object is not subscriptable") dfv);
     series ← lift (getitem df c);
     fig ← lift (px_scatter df x y (Some (ColorSeries series)) []
                   (<[c := c]> (<[y := y]> {[x := x]})) (Some "Viridis"));
     modify (render (PlotlyChart fig))
   else mret tt);;
  mret x_param.

(** Lines 251-253: [x_param] is [None] here when no branch bound it. *)
Definition current_data_block (x_param : option (option string)) : M unit :=
  ss ← gets session_state;
  match ss !! "current_data" with
  | None | Some SNone => mret tt
  | Some v =>
      modify (render (DataframeView v));;
      df ← lift (as_frame (AttributeError "set_index") v);
      match x_param with
      | None => raise (UnboundLocalError "x_param")
      | Some None => raise (KeyError "None")
      | Some (Some x) =>
          if has_column df x then modify (render (LineChartView df x))
          else raise (KeyError x)
      end
  end.

Definition qcodes_integration (u : user) : M unit :=
  modify (render (SidebarHeader "QCoDeS 控制接口"));;
  run_id ← number_input "輸入實驗 ID" 1 u;
  clicked ← button "載入實驗數據" u;
  (if clicked : bool then
     ds ← lift (load_by_id run_id);
     fr ← lift (to_pandas_dataframe ds);
     let df := reset_index fr in
     params ← lift (parameters_split (parameters ds));
     session_set "df" (SFrame df);;
     session_set "parameters" (SList params)
   else mret tt);;
  ss ← gets session_state;
  x_param ← match ss !! "df", ss !! "parameters" with
            | Some dfv, Some pv =>
                modify (render (SidebarWrite "可用參數：" pv));;
                chart_type ← radio "選擇圖表類型" ["折線圖"; "熱力圖"] u;
                if String.eqb (default "" chart_type) "折線圖" then
                  params ← lift (as_list pv);
                  Some <$> line_branch u dfv params
                else if String.eqb (default "" chart_type) "熱力圖" then
                  params ← lift (as_list pv);
                  Some <$> heat_branch u dfv params
                else mret None
            | _, _ => mret None
            end;
  current_data_block x_param.

(** Lines 260-267, with [realtime_plotting()] commented out as in the source. *)
Definition main (u : user) : M unit :=
  init_database;;
  qcodes_integration u.

(** Streamlit running the script: an exception that leaves the script ends
    the run and is shown to the user in an exception box. *)
Definition run_script (u : user) (s : state) : state :=
  match main u s with
  | (Return _, s') => s'
  | (Raise x, s') => render (ExceptionBox x) s'
  end.

End Loader.

(** ** Derived notions and example inputs *)

(** Example states: nothing on disk, and the file after [init_database]
    with three runs recorded in it. *)
Definition fresh : state :=
  {| files := ∅; db_log := []; cache := ∅; now := 0;
     session_state := ∅; ui := [] |}.

Definition run_row (id : Z) : list cell :=
  [CInt id; CText "2024-09-15"; CText "voltage,current"; CBlob []].

Definition three_runs : state :=
  set_files {[ QCODES_DB_PATH :=
                 {[ "runs" := {| tbl_columns := runs_schema;
                                 tbl_rows := map run_row [1; 2; 3] |} ]} ]}
            fresh.

Definition runs_of (s : state) (path : string) : option table :=
  the_db path s !! "runs".

(** The file as [init_database] leaves it on an empty disk: [runs] exists
    and has no rows. *)
Definition no_runs : state := snd (init_database fresh).

(** The table after a fourth run was recorded, six minutes later. *)
Definition four_runs_later : state :=
  set_now 360
    (set_files {[ QCODES_DB_PATH :=
                    {[ "runs" := {| tbl_columns := runs_schema;
                                    tbl_rows := map run_row [1; 2; 3; 4] |} ]} ]}
               (snd (fetch_live_data 0 three_runs))).

Definition runs_fresh : table :=
  {| tbl_columns := runs_schema; tbl_rows := [] |}.

(** What the statement of line 54 does to a database. *)
Definition ensure_runs (db : gmap string table) : gmap string table :=
  match db !! "runs" with
  | Some _ => db
  | None => <["runs" := runs_fresh]> db
  end.

(** A QCoDeS database: its own [runs] table is keyed by [run_id]. *)
Definition qcodes_runs : table :=
  {| tbl_columns := [("run_id", "INTEGER PRIMARY KEY"); ("exp_id", "INTEGER");
                     ("name", "TEXT"); ("parameters", "TEXT")];
     tbl_rows := [[CInt 1; CInt 1; CText "results"; CText "voltage,current"]] |}.

Definition qcodes_file : state :=
  set_files {[ QCODES_DB_PATH := {[ "runs" := qcodes_runs ]} ]} fresh.

Definition known_kinds : list string := ["散點圖"; "線圖"; "表面圖"; "直方圖"].

Definition one_current : dataframe :=
  {| df_columns := ["current"]; df_rows := [[CInt 3]] |}.

(** A column of 1,000 current readings. *)
Definition thousand_currents : dataframe :=
  {| df_columns := ["current"];
     df_rows := map (fun i => [CInt (Z.of_nat i)]) (seq 0 1000) |}.

Definition one_sample : dataframe :=
  {| df_columns := ["voltage"; "current"; "temperature"; "frequency"];
     df_rows := [[CInt 1; CInt 2; CInt 300; CInt 50]] |}.

Definition is_chart (e : element) : bool :=
  match e with PlotlyChart _ => true | _ => false end.

Definition load_widgets (u : user) : list element :=
  [SidebarHeader "QCoDeS 控制接口";
   SidebarNumberInput "輸入實驗 ID" (default 1 (typed_run_id u));
   SidebarButton "載入實驗數據"].

(** A data source that holds run 2 only: a sweep of [voltage] with
    [current] measured. *)
Definition iv_frame : indexed_frame :=
  {| index_names := ["voltage"];
     index_rows := [[CReal (1 # 10)]; [CReal (2 # 10)]; [CReal (3 # 10)]];
     frame := {| df_columns := ["current"];
                 df_rows := [[CReal (5 # 1000)]; [CReal (11 # 1000)];
                             [CReal (14 # 1000)]] |} |}.

Definition iv_sweep : dataset :=
  {| to_pandas_dataframe := Return iv_frame;
     parameters := Some "voltage,current" |}.

Definition only_run_2 (run_id : Z) : outcome dataset :=
  if Z.eqb run_id 2 then Return iv_sweep
  else Raise (ValueError "Run does not exist in the database").

(** The session after run 2 was loaded. *)
Definition loaded : state :=
  set_session
    (<["parameters" := SList ["voltage"; "current"]]>
       {[ "df" := SFrame (reset_index iv_frame) ]})
    fresh.

Definition clicks_load : user :=
  {| typed_run_id := None; load_clicked := true; picked := fun _ => None |}.

Definition looks_on : user :=
  {| typed_run_id := None; load_clicked := false; picked := fun _ => None |}.

(** The elements of a run that draws the line chart [fig]. *)
Definition line_run (u : user) (params : list string) (fig : figure)
  : list element :=
  load_widgets u ++
  [SidebarWrite "可用參數：" (SList params);
   SidebarRadio "選擇圖表類型" ["折線圖"; "熱力圖"];
   SidebarSelectbox "選擇 X 軸變數" params 0;
   SidebarSelectbox "選擇 Y 軸變數" params (y_index params);
   PlotlyChart fig].



Definition id_cells (i : nat) (rows : list (list cell)) : list cell :=
  map (fun r => nth i r CNull) rows.

Definition rows_after (i : nat) (w : Z) (rows : list (list cell))
  : list (list cell) :=
  List.filter (fun r => cell_gt (nth i r CNull) w) rows.

Definition max_of (z : Z) (zs : list Z) : Z := foldl Z.max z zs.

(** The table [df] with parameter list [params] is the loaded one in a run
    from [s]: it is held in the session and the load button is not
    clicked, or the click loads it. *)
Definition table_loaded (load_by_id : Z -> outcome dataset) (u : user)
    (s : state) (df : dataframe) (params : list string) : Prop :=
  (load_clicked u = false
   /\ session_state s !! "df" = Some (SFrame df)
   /\ session_state s !! "parameters" = Some (SList params))
  \/ (load_clicked u = true
      /\ exists ds fr names,
           load_by_id (default 1 (typed_run_id u)) = Return ds
           /\ to_pandas_dataframe ds = Return fr
           /\ parameters ds = Some names
           /\ df = reset_index fr
           /\ params = split_comma names).

(** A computation that leaves the [st.cache_data] store alone. *)
Definition keeps_cache {A} (m : M A) : Prop :=
  forall s, cache (snd (m s)) = cache s.

(** The buckets drawn for a histogram figure. The binning is Plotly's, a
    collaborator outside the module: it is given the x data and the
    [nbins] of the figure. *)
Definition bucket_count (binning : list cell -> nat -> nat) (fig : figure)
  : option nat :=
  xs ← trace_x fig; cap ← fig_nbins fig; Some (binning xs cap).

(** What a poll returns once a path is found: the batch and the watermark. *)
Definition batch_after (t : table) (i : nat) (w : Z) : dataframe :=
  {| df_columns := (tbl_columns t).*1;
     df_rows := rows_after i w (tbl_rows t) |}.

Definition watermark_after (ids : list Z) (w : Z) : Z :=
  match List.filter (Z.ltb w) ids with
  | [] => w
  | z :: zs => max_of z zs
  end.

(** ** [realtime_plotting] (lines 77-109) *)

(** What the monitoring page shows, outside the sidebar. *)
Inductive page_element : Type :=
| Title (text : string)
| Columns (weights : list Z)
| ColumnHeader (column : nat) (text : string)
| Slider (column : nat) (label : string) (lo hi value : Q)
| Selectbox (column : nat) (label : string) (options : list string)
| Placeholder (column : nat).

(** [st.slider(label, lo, hi, value)]: the widget hands back a value inside
    its bounds, [value] until the user moves it. *)
Definition slider_value (lo hi value : Q) (moved : option Q) : Q :=
  match moved with
  | Some v => if Qle_bool lo v && Qle_bool v hi then v else value
  | None => value
  end.

(** [sleep(seconds)]: the clock counts whole seconds; the sleeper wakes at
    the first tick that is not before the delay has passed. *)
Definition sleep (seconds : Q) (s : state) : state :=
  set_now (now s + Qceiling seconds) s.

(** The [while True] loop of lines 104-109, run for at most [fuel] rounds.
    [shown] is what the placeholder holds: each chart replaces the one
    before. [Return] means the loop is still going when the fuel is out. *)
Fixpoint poll_loop (fuel : nat) (update_interval : Q) (plot_type : string)
    (last_index : Z) (shown : option figure) (s : state)
  : outcome unit * state * option figure :=
  match fuel with
  | O => (Return tt, s, shown)
  | S fuel' =>
      match fetch_live_data last_index s with
      | (Raise x, s1) => (Raise x, s1, shown)
      | (Return (new_data, last_index'), s1) =>
          if negb (df_empty new_data) then
            match create_plot new_data plot_type with
            | Raise x => (Raise x, s1, shown)
            | Return fig =>
                poll_loop fuel' update_interval plot_type last_index'
                  (Some fig) (sleep update_interval s1)
            end
          else
            poll_loop fuel' update_interval plot_type last_index' shown
              (sleep update_interval s1)
      end
  end.

(** The page above the loop (lines 85-100). *)
Definition monitor_page (update_interval : Q) : list page_element :=
  [Title "QCoDeS實驗數據實時監控平台"; Columns [1; 3];
   ColumnHeader 0 "控制面板";
   Slider 0 "更新間隔(秒)" (1 # 10) 5 update_interval;
   Selectbox 0 "繪圖類型" known_kinds;
   ColumnHeader 1 "實時數據可視化"; Placeholder 1].

(** The result: how the loop ended, the state, the page and what its
    placeholder holds. *)
Definition realtime_plotting (u : user) (moved : option Q) (fuel : nat)
    (s : state) : outcome unit * state * (list page_element * option figure) :=
  let update_interval := slider_value (1 # 10) 5 1 moved in
  let plot_type := default "" (chosen u "繪圖類型" known_kinds 0) in
  match poll_loop fuel update_interval plot_type 0 None s with
  | (o, s', shown) => (o, s', (monitor_page update_interval, shown))
  end.

(** ** Derived notions for the chart dispatcher *)

(** The columns each kind reads from the frame (lines 118-128). *)
Definition required_columns (plot_type : string) : option (list string) :=
  if String.eqb plot_type "散點圖" then
    Some ["voltage"; "current"; "temperature"; "frequency"]
  else if String.eqb plot_type "線圖" then
    Some ["time"; "current"; "id"; "parameters"]
  else if String.eqb plot_type "表面圖" then
    Some ["voltage"; "current"; "temperature"]
  else if String.eqb plot_type "直方圖" then Some ["current"]
  else None.

Definition kind_of (plot_type : string) : option chart_kind :=
  if String.eqb plot_type "散點圖" then Some Scatter
  else if String.eqb plot_type "線圖" then Some Line
  else if String.eqb plot_type "表面圖" then Some Surface
  else if String.eqb plot_type "直方圖" then Some Histogram
  else None.

Definition dark_layout : layout :=
  {| template := "plotly_dark"; hovermode := "x unified";
     margin := (0, 0, 30, 0) |}.

(** A batch as [SELECT * FROM runs] shapes it on the table of line 54. *)
Definition runs_batch (rows : list (list cell)) : dataframe :=
  {| df_columns := runs_schema.*1; df_rows := rows |}.

(** ** Derived notions for the loader *)

(** A computation that leaves one view of the state as it was. *)
Definition keeps {T A : Type} (view : state -> T) (m : M A) : Prop :=
  forall s, view (snd (m s)) = view s.

(** [",".join(fields)]. *)
Fixpoint join_comma (fields : list string) : string :=
  match fields with
  | [] => ""
  | [f] => f
  | f :: rest => f ++ "," ++ join_comma rest
  end.

(** The elements of a run that draws the heat map [fig]. *)
Definition heat_run (u : user) (params : list string) (fig : figure)
  : list element :=
  load_widgets u ++
  [SidebarWrite "可用參數：" (SList params);
   SidebarRadio "選擇圖表類型" ["折線圖"; "熱力圖"];
   SidebarSelectbox "選擇 X 軸變數" params 0;
   SidebarSelectbox "選擇 Y 軸變數" params (y_index params);
   SidebarSelectbox "選擇顏色對應變數" params (color_index params);
   PlotlyChart fig].

Definition loads_run_2 : user :=
  {| typed_run_id := Some 2; load_clicked := true; picked := fun _ => None |}.

(** A session that still holds a table under [current_data], as the
    earlier version of the loader (lines 164-168) left it. *)
Definition stale_session : state :=
  set_session
    {[ "current_data" := SFrame (reset_index iv_frame) ]}
    fresh.

(** A run sweeping two gate voltages with the current measured. *)
Definition gate_frame : indexed_frame :=
  {| index_names := ["gate1"; "gate2"];
     index_rows := [[CInt 0; CInt 0]; [CInt 0; CInt 1];
                    [CInt 1; CInt 0]; [CInt 1; CInt 1]];
     frame := {| df_columns := ["current"];
                 df_rows := [[CReal (1 # 100)]; [CReal (2 # 100)];
                             [CReal (3 # 100)]; [CReal (5 # 100)]] |} |}.

Definition gate_map : dataset :=
  {| to_pandas_dataframe := Return gate_frame;
     parameters := Some "gate1,gate2,current" |}.

Definition only_gate_map (run_id : Z) : outcome dataset := Return gate_map.

Definition loads_heat_map : user :=
  {| typed_run_id := None; load_clicked := true;
     picked := fun label =>
       if String.eqb label "選擇圖表類型" then Some 1%nat else None |}.



(** What one call of [init_database] adds to the SQLite log. *)
Definition init_events : list db_event :=
  [EvConnect QCODES_DB_PATH; EvExecute QCODES_DB_PATH CreateRunsIfNotExists;
   EvCommit QCODES_DB_PATH; EvClose QCODES_DB_PATH].

(** ** Derived notions for the poll with [DB_PATH] bound *)

(** The module globals with the missing constant bound to the path of
    line 41. *)
Definition patched_globals : gmap string pyobj :=
  <["DB_PATH" := PyStr QCODES_DB_PATH]> module_globals.

(** What one poll that gets its rows adds to the SQLite log. *)
Definition poll_events (p : string) (w : Z) : list db_event :=
  [EvConnect p; EvExecute p (SelectRunsAfter w); EvClose p].

(** The table [t] of database [db] is the [runs] table of the file [p];
    its [id] column is column [i] and holds the integers [ids]. *)
Definition runs_table (s : state) (p : string) (t : table) (i : nat)
    (ids : list Z) : Prop :=
  (exists db, files s !! p = Some db /\ db !! "runs" = Some t)
  /\ index_of "id" (tbl_columns t).*1 = Some i
  /\ id_cells i (tbl_rows t) = map CInt ids.

Definition the_runs : table :=
  {| tbl_columns := runs_schema; tbl_rows := map run_row [1; 2; 3] |}.

(** The poll of lines 62-75 as it would be with [DB_PATH] bound: the
    function under the same decorator, in the globals [g]. *)
Definition fetch_live_data_in (g : gmap string pyobj) : Z -> M (dataframe * Z) :=
  cache_data 300 (fetch_live_data_body g).

(** The state [s] at time [t], a fourth run recorded meanwhile. *)
Definition run_4_recorded (t : Z) (s : state) : state :=
  set_now t
    (set_files {[ QCODES_DB_PATH :=
                    {[ "runs" := {| tbl_columns := runs_schema;
                                    tbl_rows := map run_row [1; 2; 3; 4] |} ]} ]}
               s).

(** * Properties *)

(** ** Running the monad *)

Lemma run_bind {A B} (m : M A) (k : A -> M B) (s : state) :
  (m ≫= k) s = match m s with
               | (Return a, s') => k a s'
               | (Raise e, s') => (Raise e, s')
               end.
Proof. reflexivity. Qed.

Lemma run_lift_raise {A B} (e : exn) (k : A -> M B) (s : state) :
  (lift (Raise e) ≫= k) s = (Raise e, s).
Proof. reflexivity. Qed.

Lemma run_lift_return {A B} (a : A) (k : A -> M B) (s : state) :
  (lift (Return a) ≫= k) s = k a s.
Proof. reflexivity. Qed.

(** ** Name resolution in the module *)

Lemma DB_PATH_unbound : module_globals !! "DB_PATH" = None.
Proof. vm_compute. reflexivity. Qed.

Lemma QCODES_DB_PATH_bound :
  module_globals !! "QCODES_DB_PATH" = Some (PyStr QCODES_DB_PATH).
Proof. vm_compute. reflexivity. Qed.

Lemma load_DB_PATH :
  load_global module_globals "DB_PATH" = Raise (NameError "DB_PATH").
Proof. vm_compute. reflexivity. Qed.

Lemma load_QCODES_DB_PATH :
  load_global module_globals "QCODES_DB_PATH" = Return (PyStr QCODES_DB_PATH).
Proof. unfold load_global. rewrite QCODES_DB_PATH_bound. reflexivity. Qed.

(** The undecorated function stops at its first line, in every state. *)
Lemma fetch_live_data_body_raises (last_index : Z) (s : state) :
  fetch_live_data_body module_globals last_index s
  = (Raise (NameError "DB_PATH"), s).
Proof.
  unfold fetch_live_data_body. rewrite load_DB_PATH. apply run_lift_raise.
Qed.

(** A call of the decorated function never stores an entry. *)
Lemma fetch_live_data_keeps_state (last_index : Z) (s : state) :
  snd (fetch_live_data last_index s) = s.
Proof.
  unfold fetch_live_data, cache_data.
  rewrite fetch_live_data_body_raises.
  destruct (cache s !! last_index) as [e|]; [|reflexivity].
  destruct (Z.ltb (now s) (ce_stored e + 300)); reflexivity.
Qed.

(** A call that misses the cache raises and changes nothing. *)
Lemma fetch_live_data_miss (last_index : Z) (s : state) :
  cache s !! last_index = None ->
  fetch_live_data last_index s = (Raise (NameError "DB_PATH"), s).
Proof.
  intros Hmiss. unfold fetch_live_data, cache_data.
  rewrite Hmiss, fetch_live_data_body_raises. reflexivity.
Qed.

(** C2. Whatever [last_index] is, a call of [fetch_live_data] that is not
    answered from the cache raises [NameError] for [DB_PATH], a name the
    module never binds (it binds [QCODES_DB_PATH]); the state, and with it
    the log of SQLite operations, is left as it was, so no connection is
    opened and no query is sent. *)
Theorem fetch_live_data_name_error (last_index : Z) (s : state) :
  cache s !! last_index = None ->
  module_globals !! "DB_PATH" = None
  /\ module_globals !! "QCODES_DB_PATH" = Some (PyStr QCODES_DB_PATH)
  /\ fetch_live_data last_index s = (Raise (NameError "DB_PATH"), s)
  /\ db_log (snd (fetch_live_data last_index s)) = db_log s.
Proof.
  intros Hmiss.
  pose proof (fetch_live_data_miss last_index s Hmiss) as Hcall.
  split; [exact DB_PATH_unbound|].
  split; [exact QCODES_DB_PATH_bound|].
  split; [exact Hcall|].
  rewrite Hcall. reflexivity.
Qed.

Lemma fetch_live_data_name_error_witness :
  cache three_runs !! 2 = None
  /\ fetch_live_data 2 three_runs = (Raise (NameError "DB_PATH"), three_runs).
Proof.
  split; [reflexivity|].
  apply (fetch_live_data_name_error 2 three_runs). reflexivity.
Defined.

(** ** The cache wrapper, for any function under it *)

Section CacheData.

Variable ttl : Z.
Variable f : Z -> M (dataframe * Z).

(** A stored entry answers a later call with the same argument while the
    clock is inside the window, whatever else changed in the state. *)
Lemma cache_data_hit (arg : Z) (s : state) (e : cache_entry) :
  cache s !! arg = Some e ->
  now s < ce_stored e + ttl ->
  cache_data ttl f arg s = (Return (ce_value e), s).
Proof.
  intros He Hin. unfold cache_data. rewrite He.
  apply Z.ltb_lt in Hin. rewrite Hin. reflexivity.
Qed.

(** Once the window has passed the function is run again. *)
Lemma cache_data_expired (arg : Z) (s : state) (e : cache_entry) :
  cache s !! arg = Some e ->
  ce_stored e + ttl <= now s ->
  fst (cache_data ttl f arg s) = fst (f arg s).
Proof.
  intros He Hout. unfold cache_data. rewrite He.
  apply Z.ltb_ge in Hout. rewrite Hout.
  destruct (f arg s) as [[v|x] s']; reflexivity.
Qed.

(** A call that returns leaves its value in the store. *)
Lemma cache_data_stores (arg : Z) (s s' : state) (v : dataframe * Z) :
  cache s !! arg = None ->
  f arg s = (Return v, s') ->
  cache (snd (cache_data ttl f arg s)) !! arg
  = Some {| ce_value := v; ce_stored := now s' |}.
Proof.
  intros Hmiss Hrun. unfold cache_data. rewrite Hmiss, Hrun. simpl.
  apply lookup_insert_eq.
Qed.

(** A call that raises stores nothing. *)
Lemma cache_data_raise (arg : Z) (s s' : state) (x : exn) :
  cache s !! arg = None ->
  f arg s = (Raise x, s') ->
  cache_data ttl f arg s = (Raise x, s').
Proof.
  intros Hmiss Hrun. unfold cache_data. rewrite Hmiss, Hrun. reflexivity.
Qed.

End CacheData.

(** ** The polling fetcher on the module as written *)

(** C1. The module as written does not deliver the batch: with runs 1, 2
    and 3 recorded, each of them above the watermark 0, the call with
    [last_index = 0] raises [NameError] instead of returning them. *)
Theorem fetch_live_data_no_batch :
  (tbl_rows <$> runs_of three_runs QCODES_DB_PATH) = Some (map run_row [1; 2; 3])
  /\ Forall (fun r => cell_gt (nth 0 r CNull) 0 = true) (map run_row [1; 2; 3])
  /\ fetch_live_data 0 three_runs = (Raise (NameError "DB_PATH"), three_runs)
  /\ forall batch w, fst (fetch_live_data 0 three_runs) <> Return (batch, w).
Proof.
  assert (Hcall := fetch_live_data_miss 0 three_runs eq_refl).
  split; [reflexivity|].
  split; [repeat constructor|].
  split; [exact Hcall|].
  intros batch w. rewrite Hcall. discriminate.
Qed.

(** C3. The module as written does not hand the watermark back: on a [runs]
    table without rows a call with [last_index = 7] raises [NameError]
    where the pair (empty batch, 7) is expected. *)
Theorem fetch_live_data_no_watermark :
  (tbl_rows <$> runs_of no_runs QCODES_DB_PATH) = Some []
  /\ fetch_live_data 7 no_runs = (Raise (NameError "DB_PATH"), no_runs)
  /\ forall batch w, fst (fetch_live_data 7 no_runs) <> Return (batch, w).
Proof.
  assert (Hcall := fetch_live_data_miss 7 no_runs eq_refl).
  split; [vm_compute; reflexivity|].
  split; [exact Hcall|].
  intros batch w. rewrite Hcall. discriminate.
Qed.

(** C4. The module as written has nothing to cache: the call at time 0
    raises and stores no entry, and the call with the same watermark after
    the 300-second window raises again instead of showing run 4. *)
Theorem fetch_live_data_nothing_cached :
  fst (fetch_live_data 0 three_runs) = Raise (NameError "DB_PATH")
  /\ cache (snd (fetch_live_data 0 three_runs)) = ∅
  /\ now three_runs + 300 < now four_runs_later
  /\ fst (fetch_live_data 0 four_runs_later) = Raise (NameError "DB_PATH").
Proof.
  assert (Hcall := fetch_live_data_miss 0 three_runs eq_refl).
  split; [rewrite Hcall; reflexivity|].
  split; [rewrite Hcall; reflexivity|].
  split; [reflexivity|].
  rewrite (fetch_live_data_miss 0 four_runs_later); [reflexivity|].
  unfold four_runs_later. rewrite Hcall. reflexivity.
Qed.

(** ** The schema initializer *)

Arguments QCODES_DB_PATH : simpl never.

Ltac run :=
  unfold mbind, mret, fmap, M_bind, M_ret, M_fmap, bind, ret, modify, gets,
    lift, raise; cbn.

Lemma init_database_files (s : state) :
  fst (init_database s) = Return tt
  /\ files (snd (init_database s))
     = <[QCODES_DB_PATH := ensure_runs (the_db QCODES_DB_PATH s)]> (files s).
Proof.
  unfold init_database. rewrite load_QCODES_DB_PATH, run_lift_return.
  unfold sqlite3_connect, execute_create_runs, commit, close, ensure_runs,
    the_db.
  run.
  destruct (files s !! QCODES_DB_PATH) as [db|] eqn:Hf; cbn.
  - rewrite Hf; cbn.
    destruct (db !! "runs") eqn:Hr; cbn.
    + split; [reflexivity|]. symmetry. apply insert_id. exact Hf.
    + split; reflexivity.
  - rewrite lookup_insert_eq. cbn. rewrite lookup_empty. cbn.
    split; [reflexivity|]. apply insert_insert_eq.
Qed.

Lemma ensure_runs_idem (db : gmap string table) :
  ensure_runs (ensure_runs db) = ensure_runs db.
Proof.
  unfold ensure_runs. destruct (db !! "runs") eqn:Hr.
  - rewrite Hr. reflexivity.
  - rewrite lookup_insert_eq. reflexivity.
Qed.

Lemma ensure_runs_lookup (db : gmap string table) :
  ensure_runs db !! "runs" = Some (default runs_fresh (db !! "runs")).
Proof.
  unfold ensure_runs. destruct (db !! "runs") eqn:Hr; cbn.
  - exact Hr.
  - apply lookup_insert_eq.
Qed.

Lemma ensure_runs_other (db : gmap string table) (name : string) :
  name <> "runs" -> ensure_runs db !! name = db !! name.
Proof.
  intros Hne. unfold ensure_runs. destruct (db !! "runs"); [reflexivity|].
  apply lookup_insert_ne. congruence.
Qed.

(** C9, as stated, fails where a table named [runs] with other columns is
    already in the file: after [init_database] no table of the file has the
    columns (id, timestamp, parameters, data). *)
Lemma init_database_keeps_other_runs :
  ~ exists name t,
      the_db QCODES_DB_PATH (snd (init_database qcodes_file)) !! name = Some t
      /\ (tbl_columns t).*1 = ["id"; "timestamp"; "parameters"; "data"].
Proof.
  intros (name & t & Hl & Hc).
  assert (Hdb : the_db QCODES_DB_PATH (snd (init_database qcodes_file))
                = {[ "runs" := qcodes_runs ]}) by (vm_compute; reflexivity).
  rewrite Hdb in Hl. apply lookup_singleton_Some in Hl as [_ <-].
  discriminate Hc.
Qed.

(** C9, amended. [init_database] never raises; afterwards the file exists
    and holds a table named [runs]: the one that was there, whatever its
    columns, or else a new one with columns (id, timestamp, parameters,
    data) and no rows. Other tables and other files are untouched, and a
    second run changes nothing on disk. *)
Theorem init_database_idempotent (s : state) :
  let s1 := snd (init_database s) in
  fst (init_database s) = Return tt
  /\ is_Some (files s1 !! QCODES_DB_PATH)
  /\ runs_of s1 QCODES_DB_PATH
     = Some (default runs_fresh (runs_of s QCODES_DB_PATH))
  /\ (forall name, name <> "runs" ->
        the_db QCODES_DB_PATH s1 !! name = the_db QCODES_DB_PATH s !! name)
  /\ (forall p, p <> QCODES_DB_PATH -> files s1 !! p = files s !! p)
  /\ fst (init_database s1) = Return tt
  /\ files (snd (init_database s1)) = files s1.
Proof.
  intros s1.
  destruct (init_database_files s) as [Hret Hfiles].
  destruct (init_database_files s1) as [Hret1 Hfiles1].
  fold s1 in Hfiles.
  assert (Hdb : the_db QCODES_DB_PATH s1
                = ensure_runs (the_db QCODES_DB_PATH s)).
  { unfold the_db at 1. rewrite Hfiles, lookup_insert_eq. reflexivity. }
  split; [exact Hret|].
  split; [rewrite Hfiles, lookup_insert_eq; eauto|].
  split; [unfold runs_of; rewrite Hdb; apply ensure_runs_lookup|].
  split; [intros name Hne; rewrite Hdb; apply ensure_runs_other, Hne|].
  split; [intros p Hne; rewrite Hfiles; apply lookup_insert_ne; congruence|].
  split; [exact Hret1|].
  rewrite Hfiles1, Hdb, ensure_runs_idem, Hfiles. apply insert_insert_eq.
Qed.

(** ** The chart dispatcher *)

(** C6. A selector that is none of the four known kinds produces no chart:
    no branch binds the local [fig], and the call ends in
    [UnboundLocalError] at line 130 instead of returning a figure. *)
Theorem create_plot_unknown_kind (data : dataframe) (plot_type : string) :
  plot_type ∉ known_kinds ->
  create_plot data plot_type = Raise (UnboundLocalError "fig")
  /\ forall fig, create_plot data plot_type <> Return fig.
Proof.
  intros Hnot.
  assert (Hne : forall k, k ∈ known_kinds -> String.eqb plot_type k = false).
  { intros k Hk. apply String.eqb_neq. intros ->. exact (Hnot Hk). }
  assert (Hraise : create_plot data plot_type = Raise (UnboundLocalError "fig")).
  { unfold create_plot.
    rewrite !Hne by (unfold known_kinds; set_solver). reflexivity. }
  split; [exact Hraise|]. intros fig. rewrite Hraise. discriminate.
Qed.

Lemma create_plot_unknown_kind_witness :
  ("圓餅圖" ∉ known_kinds)
  /\ create_plot one_current "圓餅圖" = Raise (UnboundLocalError "fig").
Proof.
  assert (Hnot : "圓餅圖" ∉ known_kinds).
  { unfold known_kinds. intros Hin.
    repeat (apply elem_of_cons in Hin as [Heq|Hin]; [discriminate Heq|]).
    inversion Hin. }
  split; [exact Hnot|].
  apply (create_plot_unknown_kind one_current "圓餅圖" Hnot).
Defined.

Lemma has_column_values (df : dataframe) (name : string) :
  has_column df name = true -> exists xs, df_column df name = Some xs.
Proof.
  unfold has_column, df_column. intros Hcol.
  apply bool_decide_eq_true in Hcol as [i Hi]. rewrite Hi. cbn. eauto.
Qed.

(** C7. For every batch: a figure that [create_plot] returns for the
    histogram kind is a histogram of the batch's [current] column, all its
    values (1,000 if the column has 1,000), with [nbins] set to exactly 50,
    so any binning that respects the figure's cap draws at most 50
    buckets; a figure it returns for the scatter kind has exactly the two
    positional columns [voltage] and [current] and the one colour column
    [temperature]. Either figure is returned when the batch has the columns
    the kind reads. *)
Theorem create_plot_histogram_scatter (data : dataframe) :
  (forall fig, create_plot data "直方圖" = Return fig ->
     fig_kind fig = Histogram /\ fig_data fig = data
     /\ positional_columns fig = ["current"]
     /\ fig_nbins fig = Some 50%nat
     /\ exists xs, df_column data "current" = Some xs
          /\ trace_x fig = Some xs
          /\ forall binning : list cell -> nat -> nat,
               (forall ys cap, (binning ys cap <= cap)%nat) ->
               exists k, bucket_count binning fig = Some k /\ (k <= 50)%nat)
  /\ (has_column data "current" = true ->
      exists fig, create_plot data "直方圖" = Return fig)
  /\ (forall fig, create_plot data "散點圖" = Return fig ->
        fig_kind fig = Scatter /\ fig_data fig = data
        /\ positional_columns fig = ["voltage"; "current"]
        /\ color_column fig = Some "temperature"
        /\ fig_color fig = Some (ColorColumn "temperature")
        /\ fig_hover_data fig = ["frequency"]
        /\ fig_z fig = [] /\ fig_line_group fig = None
        /\ fig_nbins fig = None)
  /\ (forallb (has_column data)
        ["voltage"; "current"; "temperature"; "frequency"] = true ->
      exists fig, create_plot data "散點圖" = Return fig).
Proof.
  split; [|split; [|split]].
  - intros fig. unfold create_plot, px_histogram, px_columns. cbn.
    destruct (has_column data "current") eqn:Hcol; cbn; [|discriminate].
    intros [= <-]. cbn.
    destruct (has_column_values data "current" Hcol) as [xs Hxs].
    repeat (split; [reflexivity|]).
    exists xs. split; [exact Hxs|].
    unfold trace_x, bucket_count. cbn. rewrite Hxs. cbn.
    split; [reflexivity|].
    intros binning Hcap. eexists. split; [reflexivity|]. apply Hcap.
  - intros Hcol. unfold create_plot, px_histogram, px_columns. cbn.
    rewrite Hcol. cbn. eauto.
  - intros fig. unfold create_plot, px_scatter, px_columns. cbn.
    destruct (has_column data "voltage"), (has_column data "current"),
      (has_column data "frequency"), (has_column data "temperature");
      cbn; try discriminate.
    intros [= <-]. cbn. repeat split.
  - intros Hcols. cbn in Hcols.
    repeat (apply andb_prop in Hcols as [? Hcols]).
    unfold create_plot, px_scatter, px_columns. cbn.
    repeat match goal with
           | H : has_column _ _ = true |- _ => rewrite H; clear H
           end.
    cbn. eauto.
Qed.

Lemma create_plot_histogram_scatter_witness :
  length (df_rows thousand_currents) = 1000%nat
  /\ (exists fig xs,
        create_plot thousand_currents "直方圖" = Return fig
        /\ fig_nbins fig = Some 50%nat
        /\ trace_x fig = Some xs /\ length xs = 1000%nat
        /\ exists k, bucket_count (fun ys cap => Nat.min cap (length ys)) fig
                     = Some k /\ (k <= 50)%nat)
  /\ (exists fig, create_plot one_sample "散點圖" = Return fig
        /\ positional_columns fig = ["voltage"; "current"]
        /\ color_column fig = Some "temperature").
Proof.
  split; [reflexivity|].
  destruct (create_plot_histogram_scatter thousand_currents)
    as (Hhist & Hreturns & _).
  destruct (create_plot_histogram_scatter one_sample)
    as (_ & _ & Hscatter & Hdraws).
  split.
  - destruct (Hreturns eq_refl) as [fig Hfig].
    destruct (Hhist fig Hfig) as (_ & _ & _ & Hn & xs & Hxs & Htx & Hbins).
    exists fig, xs. split; [exact Hfig|]. split; [exact Hn|].
    split; [exact Htx|]. split.
    + revert Hxs. vm_compute. intros [= <-]. reflexivity.
    + apply Hbins. intros ys cap. apply Nat.le_min_l.
  - destruct (Hdraws eq_refl) as [fig Hfig].
    destruct (Hscatter fig Hfig) as (_ & _ & Hp & Hc & _).
    exists fig. repeat split; assumption.
Defined.

(** ** The experiment loader *)

(** C5. When the lookup of the run raises (no run has that id), the
    exception passes through [qcodes_integration] and [main] as it is: the
    session writes of lines 217-218 are not reached, so the session state is
    the one from before, nothing but the three load widgets is rendered by
    the function, and the runner shows the exception to the user. *)
Theorem qcodes_integration_load_raises
    (load_by_id : Z -> outcome dataset) (u : user) (s : state) (x : exn) :
  load_clicked u = true ->
  load_by_id (default 1 (typed_run_id u)) = Raise x ->
  let r := qcodes_integration load_by_id u s in
  fst r = Raise x
  /\ session_state (snd r) = session_state s
  /\ ui (snd r) = (ui s ++ load_widgets u)%list
  /\ fst (main load_by_id u s) = Raise x
  /\ session_state (run_script load_by_id u s) = session_state s
  /\ ui (run_script load_by_id u s)
     = (ui s ++ load_widgets u ++ [ExceptionBox x])%list.
Proof.
  intros Hclick Hload r. subst r.
  unfold run_script, main, init_database. rewrite load_QCODES_DB_PATH.
  unfold qcodes_integration, number_input, button, sqlite3_connect,
    execute_create_runs, commit, close, the_db.
  run. rewrite Hclick, Hload. cbn.
  split; [reflexivity|]. split; [reflexivity|].
  split; [rewrite <- !app_assoc; reflexivity|].
  destruct (files s !! QCODES_DB_PATH) as [db|] eqn:Hf; cbn.
  - rewrite Hf; cbn.
    destruct (db !! "runs"); cbn; rewrite <- !app_assoc; repeat split.
  - rewrite lookup_insert_eq; cbn. rewrite lookup_empty. cbn.
    rewrite <- !app_assoc. repeat split.
Qed.

Lemma qcodes_integration_load_raises_witness :
  load_clicked clicks_load = true
  /\ only_run_2 (default 1 (typed_run_id clicks_load))
     = Raise (ValueError "Run does not exist in the database")
  /\ fst (qcodes_integration only_run_2 clicks_load loaded)
     = Raise (ValueError "Run does not exist in the database")
  /\ session_state (snd (qcodes_integration only_run_2 clicks_load loaded))
     = session_state loaded
  /\ session_state (run_script only_run_2 clicks_load loaded)
     = session_state loaded
  /\ last (ui (run_script only_run_2 clicks_load loaded))
     = Some (ExceptionBox (ValueError "Run does not exist in the database")).
Proof.
  split; [reflexivity|]. split; [reflexivity|].
  destruct (qcodes_integration_load_raises only_run_2 clicks_load loaded
              (ValueError "Run does not exist in the database")
              eq_refl eq_refl) as (Hr & Hs & _ & _ & Hss & Hu).
  split; [exact Hr|]. split; [exact Hs|]. split; [exact Hss|].
  rewrite Hu. reflexivity.
Defined.

Arguments y_index : simpl never.
Arguments color_index : simpl never.
Arguments reset_index : simpl never.
Arguments split_comma : simpl never.

(** C8. With a loaded table that has the columns [voltage] and [current]
    (held in the session from an earlier run, or loaded by this one), the
    line-chart kind selected, X set to [voltage] and Y to [current], the
    run ends normally and the one chart it draws is a line chart over that
    table whose x and y data are the table's [voltage] and [current]
    columns, value for value. *)
Theorem qcodes_integration_line_round_trip
    (load_by_id : Z -> outcome dataset) (u : user) (s : state)
    (df : dataframe) (params : list string) (vs cs : list cell) :
  table_loaded load_by_id u s df params ->
  session_state s !! "current_data" = None ->
  chosen u "選擇圖表類型" ["折線圖"; "熱力圖"] 0 = Some "折線圖" ->
  chosen u "選擇 X 軸變數" params 0 = Some "voltage" ->
  chosen u "選擇 Y 軸變數" params (y_index params) = Some "current" ->
  df_column df "voltage" = Some vs ->
  df_column df "current" = Some cs ->
  let r := qcodes_integration load_by_id u s in
  exists fig,
    fst r = Return tt
    /\ ui (snd r) = (ui s ++ line_run u params fig)%list
    /\ session_state (snd r) !! "df" = Some (SFrame df)
    /\ fig_kind fig = Line
    /\ fig_data fig = df
    /\ trace_x fig = Some vs
    /\ trace_y fig = Some cs.
Proof.
  intros Hloaded Hcur Hkind Hx Hy Hvs Hcs r. subst r.
  assert (Hv : has_column df "voltage" = true).
  { unfold has_column, df_column in *.
    destruct (index_of "voltage" (df_columns df)); [reflexivity|discriminate]. }
  assert (Hc : has_column df "current" = true).
  { unfold has_column, df_column in *.
    destruct (index_of "current" (df_columns df)); [reflexivity|discriminate]. }
  unfold qcodes_integration, number_input, button, radio, line_branch,
    selectbox, current_data_block, session_set, px_line, px_columns in *.
  destruct Hloaded as [(Hclick & Hdf & Hparams)
                      |(Hclick & ds & fr & names & Hload & Hfr & Hnames
                        & Hdf' & Hps)].
  - run. rewrite Hclick. cbn. rewrite Hdf, Hparams. cbn.
    rewrite Hkind. cbn. rewrite Hx, Hy. cbn. rewrite Hv, Hc. cbn.
    rewrite Hcur. cbn.
    eexists. split; [reflexivity|].
    split; [unfold line_run, load_widgets; rewrite <- !app_assoc; reflexivity|].
    split; [exact Hdf|]. cbn.
    unfold trace_x, trace_y. cbn. rewrite Hvs, Hcs. repeat split.
  - run. rewrite Hclick, Hload. cbn. rewrite Hfr. cbn. rewrite Hnames. cbn.
    rewrite <- Hdf', <- Hps.
    rewrite lookup_insert_ne by discriminate. rewrite !lookup_insert_eq. cbn.
    rewrite Hkind. cbn. rewrite Hx, Hy. cbn. rewrite Hv, Hc. cbn.
    rewrite !lookup_insert_ne by discriminate. rewrite Hcur. cbn.
    eexists. split; [reflexivity|].
    split; [unfold line_run, load_widgets; rewrite <- !app_assoc; reflexivity|].
    split; [rewrite lookup_insert_ne by discriminate; apply lookup_insert_eq|].
    cbn. unfold trace_x, trace_y. cbn. rewrite Hvs, Hcs. repeat split.
Qed.

Lemma qcodes_integration_line_round_trip_witness :
  exists fig,
    fst (qcodes_integration only_run_2 looks_on loaded) = Return tt
    /\ filter (fun e => is_chart e = true)
         (ui (snd (qcodes_integration only_run_2 looks_on loaded)))
       = [PlotlyChart fig]
    /\ trace_x fig = Some [CReal (1 # 10); CReal (2 # 10); CReal (3 # 10)]
    /\ trace_y fig
       = Some [CReal (5 # 1000); CReal (11 # 1000); CReal (14 # 1000)].
Proof.
  assert (Hloaded : table_loaded only_run_2 looks_on loaded
                      (reset_index iv_frame)
                      ["voltage"; "current"]).
  { left. repeat split. }
  destruct (qcodes_integration_line_round_trip only_run_2 looks_on loaded
              (reset_index iv_frame)
              ["voltage"; "current"]
              [CReal (1 # 10); CReal (2 # 10); CReal (3 # 10)]
              [CReal (5 # 1000); CReal (11 # 1000); CReal (14 # 1000)]
              Hloaded eq_refl eq_refl eq_refl eq_refl eq_refl eq_refl)
    as (fig & Hrun & Hui & _ & _ & _ & Hx & Hy).
  exists fig. split; [exact Hrun|]. rewrite Hui.
  split; [reflexivity|]. split; assumption.
Defined.



(** ** The polling fetcher in globals that bind [DB_PATH] *)

(** What lines 70-75 do once line 69 finds a path: the defect confirmed
    above is the name alone. *)

Lemma max_of_upper (zs : list Z) (z : Z) :
  z <= max_of z zs /\ Forall (fun y => y <= max_of z zs) zs.
Proof.
  unfold max_of. revert z. induction zs as [|y zs IH]; intros z; cbn.
  - split; [lia|constructor].
  - destruct (IH (Z.max z y)) as [Hz Hall]. split; [lia|].
    constructor; [lia|exact Hall].
Qed.

Lemma max_of_member (zs : list Z) (z : Z) : max_of z zs ∈ z :: zs.
Proof.
  unfold max_of. revert z. induction zs as [|y zs IH]; intros z; cbn.
  - apply elem_of_cons. left. reflexivity.
  - specialize (IH (Z.max z y)).
    apply elem_of_cons.
    destruct (Z.max_spec z y) as [[_ Heq]|[_ Heq]]; rewrite Heq in IH |- *.
    + right. exact IH.
    + apply elem_of_cons in IH as [IH|IH]; [left; exact IH|].
      right. apply elem_of_cons. right. exact IH.
Qed.

Lemma series_max_ints (z : Z) (zs : list Z) :
  series_max (map CInt (z :: zs)) = Return (max_of z zs).
Proof.
  unfold max_of. cbn. revert z. induction zs as [|y zs IH]; intros z.
  - reflexivity.
  - cbn. apply IH.
Qed.

Lemma id_cells_after (i : nat) (w : Z) (rows : list (list cell)) (ids : list Z) :
  id_cells i rows = map CInt ids ->
  id_cells i (rows_after i w rows) = map CInt (List.filter (Z.ltb w) ids).
Proof.
  unfold id_cells, rows_after. revert ids.
  induction rows as [|r rows IH]; intros [|z ids] Hids; try discriminate.
  - reflexivity.
  - cbn in Hids. injection Hids as Hr Hrest. cbn. rewrite Hr. cbn.
    specialize (IH ids Hrest).
    destruct (Z.ltb w z); cbn; [rewrite Hr|]; rewrite IH; reflexivity.
Qed.

Lemma rows_after_above (i : nat) (w : Z) (rows : list (list cell)) :
  Forall (fun r => cell_gt (nth i r CNull) w = true) (rows_after i w rows).
Proof.
  unfold rows_after. apply Forall_forall. intros r Hin.
  apply list_elem_of_In, filter_In in Hin as [_ Hgt]. exact Hgt.
Qed.

(** The scan keeps the stored order: a table stored by ascending id gives
    a batch in ascending id. The query itself has no [ORDER BY]. *)
Lemma filter_ltb_sorted (w : Z) (ids : list Z) :
  StronglySorted Z.lt ids -> StronglySorted Z.lt (List.filter (Z.ltb w) ids).
Proof.
  induction 1 as [|z ids Hs IH Hall]; cbn; [constructor|].
  destruct (Z.ltb w z); [|exact IH].
  constructor; [exact IH|].
  apply Forall_forall. intros y Hy.
  apply list_elem_of_In, filter_In in Hy as [Hy _].
  rewrite Forall_forall in Hall. apply Hall, list_elem_of_In, Hy.
Qed.

Section BoundPath.

Variable g : gmap string pyobj.
Variable p : string.
Hypothesis Hbound : g !! "DB_PATH" = Some (PyStr p).

Variables (s : state) (db : gmap string table) (t : table) (i : nat).
Hypothesis Hfile : files s !! p = Some db.
Hypothesis Hruns : db !! "runs" = Some t.
Hypothesis Hid : index_of "id" (tbl_columns t).*1 = Some i.

Variable ids : list Z.
Hypothesis Hints : id_cells i (tbl_rows t) = map CInt ids.

Lemma fetch_live_data_body_bound (w : Z) :
  fst (fetch_live_data_body g w s) = Return (batch_after t i w, watermark_after ids w).
Proof.
  unfold fetch_live_data_body, load_global. rewrite Hbound.
  unfold sqlite3_connect, read_sql_runs_after, close, the_db.
  unfold mbind, mret, M_bind, M_ret, bind, ret, modify, gets, lift. cbn.
  rewrite Hfile. cbn. rewrite Hfile. cbn. rewrite Hruns. cbn. rewrite Hid.
  fold (rows_after i w (tbl_rows t)). fold (batch_after t i w).
  pose proof (id_cells_after i w (tbl_rows t) ids Hints) as Hcells.
  unfold watermark_after.
  assert (Hcol : getitem (batch_after t i w) "id"
                 = Return (id_cells i (rows_after i w (tbl_rows t)))).
  { unfold getitem, df_column, batch_after. cbn. rewrite Hid. reflexivity. }
  assert (Hne : df_columns (batch_after t i w) <> []).
  { unfold batch_after. cbn. destruct (tbl_columns t).*1; [discriminate Hid|].
    discriminate. }
  unfold df_empty.
  destruct (df_columns (batch_after t i w)) as [|c cols] eqn:Hc; [congruence|].
  destruct (df_rows (batch_after t i w)) as [|r rows] eqn:Hr.
  - cbn. unfold batch_after in Hr. cbn in Hr. rewrite Hr in Hcells.
    destruct (List.filter (Z.ltb w) ids); [reflexivity|discriminate Hcells].
  - cbn. rewrite Hcol. cbn. unfold batch_after in Hr. cbn in Hr.
    destruct (List.filter (Z.ltb w) ids) as [|z zs] eqn:Hf.
    + rewrite Hr in Hcells. discriminate Hcells.
    + rewrite Hcells, series_max_ints. reflexivity.
Qed.

End BoundPath.

(** With [DB_PATH] bound to the file of [three_runs], a poll above
    watermark 1 gives runs 2 and 3 and the new watermark 3. *)
Example fetch_live_data_body_bound_example :
  fst (fetch_live_data_body
         (<["DB_PATH" := PyStr QCODES_DB_PATH]> module_globals) 1 three_runs)
  = Return ({| df_columns := ["id"; "timestamp"; "parameters"; "data"];
               df_rows := map run_row [2; 3] |}, 3).
Proof. vm_compute. reflexivity. Qed.

(** ** The cache store is written by [st.cache_data] alone *)

Section KeepsCache.
Context {A B : Type}.

Lemma keeps_ret (a : A) : keeps_cache (mret a : M A).
Proof. intros s. reflexivity. Qed.

Lemma keeps_raise (x : exn) : keeps_cache (raise x : M A).
Proof. intros s. reflexivity. Qed.

Lemma keeps_lift (o : outcome A) : keeps_cache (lift o).
Proof. intros s. reflexivity. Qed.

Lemma keeps_gets (f : state -> A) : keeps_cache (gets f).
Proof. intros s. reflexivity. Qed.

Lemma keeps_bind (m : M A) (k : A -> M B) :
  keeps_cache m -> (forall a, keeps_cache (k a)) -> keeps_cache (m ≫= k).
Proof.
  intros Hm Hk s. rewrite run_bind. specialize (Hm s).
  destruct (m s) as [[a|x] s']; cbn in *; [rewrite Hk|]; exact Hm.
Qed.

Lemma keeps_fmap (f : A -> B) (m : M A) :
  keeps_cache m -> keeps_cache (f <$> m).
Proof.
  intros Hm s. specialize (Hm s). unfold fmap, M_fmap, bind, ret.
  destruct (m s) as [[a|x] s']; exact Hm.
Qed.

End KeepsCache.

Lemma keeps_modify (f : state -> state) :
  (forall s, cache (f s) = cache s) -> keeps_cache (modify f).
Proof. intros Hf s. apply Hf. Qed.

Ltac keeps :=
  repeat match goal with
    | |- keeps_cache (_ ≫= _) => apply keeps_bind; [|intros ?]
    | |- keeps_cache (_ <$> _) => apply keeps_fmap
    | |- keeps_cache (mret _) => apply keeps_ret
    | |- keeps_cache (raise _) => apply keeps_raise
    | |- keeps_cache (lift _) => apply keeps_lift
    | |- keeps_cache (gets _) => apply keeps_gets
    | |- keeps_cache (modify _) => apply keeps_modify; intros ?; reflexivity
    | |- keeps_cache (match ?x with _ => _ end) => destruct x
    end.

Lemma init_database_keeps_cache : keeps_cache init_database.
Proof.
  unfold init_database, sqlite3_connect, execute_create_runs, commit, close.
  keeps.
Qed.

Lemma qcodes_integration_keeps_cache
    (load_by_id : Z -> outcome dataset) (u : user) :
  keeps_cache (qcodes_integration load_by_id u).
Proof.
  unfold qcodes_integration, number_input, button, radio, session_set,
    line_branch, heat_branch, selectbox, current_data_block.
  keeps.
Qed.

(** * Further properties *)

(** ** The monitoring page *)

(** X1. The monitoring page never gets to draw: whatever the interval and
    the chart kind, the first poll raises [NameError] for [DB_PATH], the
    placeholder stays empty and the state, with its SQLite log, is as
    before. *)
Theorem realtime_plotting_stops_at_first_poll
    (u : user) (moved : option Q) (fuel : nat) (s : state) :
  cache s !! 0 = None ->
  realtime_plotting u moved (S fuel) s
  = (Raise (NameError "DB_PATH"), s,
     (monitor_page (slider_value (1 # 10) 5 1 moved), None)).
Proof.
  intros Hmiss. unfold realtime_plotting. cbn [poll_loop].
  rewrite (fetch_live_data_miss 0 s Hmiss). reflexivity.
Qed.

Lemma realtime_plotting_stops_at_first_poll_witness :
  cache three_runs !! 0 = None
  /\ realtime_plotting looks_on (Some (1 # 2)) 5 three_runs
     = (Raise (NameError "DB_PATH"), three_runs,
        (monitor_page (1 # 2), None)).
Proof.
  split; [reflexivity|].
  apply (realtime_plotting_stops_at_first_poll looks_on (Some (1 # 2)) 4
           three_runs).
  reflexivity.
Defined.

(** ** The chart dispatcher, kind by kind *)

Lemma missing_none (data : dataframe) (names : list string) :
  forallb (has_column data) names = true ->
  List.filter (fun n => negb (has_column data n)) names = [].
Proof.
  induction names as [|n names IH]; [reflexivity|].
  cbn. intros Hall. apply andb_prop in Hall as [Hn Hrest].
  rewrite Hn. cbn. exact (IH Hrest).
Qed.

Lemma missing_some (data : dataframe) (names : list string) :
  forallb (has_column data) names = false ->
  exists n rest,
    List.filter (fun n => negb (has_column data n)) names = n :: rest.
Proof.
  induction names as [|n names IH]; [discriminate|].
  cbn. destruct (has_column data n); cbn; eauto.
Qed.

Lemma px_columns_present (data : dataframe) (names : list string) :
  forallb (has_column data) names = true -> px_columns data names = Return tt.
Proof. intros Hall. unfold px_columns. rewrite missing_none; done. Qed.

Lemma px_columns_missing (data : dataframe) (names : list string) :
  forallb (has_column data) names = false ->
  exists n, px_columns data names = Raise (ValueError n).
Proof.
  intros Hsome. unfold px_columns.
  destruct (missing_some _ _ Hsome) as (n & rest & ->). eauto.
Qed.

Lemma go_surface_present (data : dataframe) (cols : list string) :
  forallb (has_column data) cols = true ->
  exists fig, go_surface data cols = Return fig
    /\ fig_kind fig = Surface /\ fig_data fig = data /\ fig_layout fig = None.
Proof.
  intros Hall. unfold go_surface. rewrite missing_none by done.
  eexists. repeat split.
Qed.

Lemma go_surface_missing (data : dataframe) (cols : list string) :
  forallb (has_column data) cols = false ->
  exists n, go_surface data cols = Raise (KeyError n).
Proof.
  intros Hsome. unfold go_surface.
  destruct (missing_some _ _ Hsome) as (n & rest & ->). eauto.
Qed.

(** The outcome of [create_plot], by the kind and the columns present. *)
Lemma create_plot_cases (data : dataframe) (plot_type : string) :
  match required_columns plot_type with
  | None => create_plot data plot_type = Raise (UnboundLocalError "fig")
  | Some cols =>
      if forallb (has_column data) cols then
        exists fig, create_plot data plot_type = Return fig
          /\ Some (fig_kind fig) = kind_of plot_type
          /\ fig_data fig = data
          /\ fig_layout fig = Some dark_layout
      else exists x, create_plot data plot_type = Raise x
  end.
Proof.
  unfold required_columns, kind_of, create_plot.
  destruct (String.eqb plot_type "散點圖").
  { assert (Hsame : forallb (has_column data)
                      ["voltage"; "current"; "frequency"; "temperature"]
                    = forallb (has_column data)
                        ["voltage"; "current"; "temperature"; "frequency"]).
    { cbn. destruct (has_column data "voltage"), (has_column data "current"),
        (has_column data "frequency"), (has_column data "temperature");
        reflexivity. }
    unfold px_scatter.
    change (px_columns data _)
      with (px_columns data
              ["voltage"; "current"; "frequency"; "temperature"]).
    destruct (forallb _ ["voltage"; "current"; "temperature"; "frequency"])
      eqn:Hc.
    - rewrite (px_columns_present _ _ Hsame). cbn. eexists. repeat split.
    - destruct (px_columns_missing _ _ Hsame) as [n ->]. cbn. eauto. }
  destruct (String.eqb plot_type "線圖").
  { destruct (forallb _ _) eqn:Hc.
    - unfold px_line.
      change (px_columns data _)
        with (px_columns data ["time"; "current"; "id"; "parameters"]).
      rewrite (px_columns_present _ _ Hc). cbn. eexists. repeat split.
    - unfold px_line.
      change (px_columns data _)
        with (px_columns data ["time"; "current"; "id"; "parameters"]).
      destruct (px_columns_missing _ _ Hc) as [n ->]. cbn. eauto. }
  destruct (String.eqb plot_type "表面圖").
  { destruct (forallb _ _) eqn:Hc.
    - destruct (go_surface_present _ _ Hc) as (fig & -> & Hk & Hd & _). cbn.
      eexists. split; [reflexivity|]. cbn. rewrite Hk, Hd. repeat split.
    - destruct (go_surface_missing _ _ Hc) as [n ->]. cbn. eauto. }
  destruct (String.eqb plot_type "直方圖").
  { destruct (forallb _ _) eqn:Hc.
    - unfold px_histogram.
      rewrite (px_columns_present _ _ Hc). cbn. eexists. repeat split.
    - unfold px_histogram.
      destruct (px_columns_missing _ _ Hc) as [n ->]. cbn. eauto. }
  reflexivity.
Qed.

(** X2. [create_plot] returns a figure exactly when the selector is one of
    the four kinds and the frame has every column that kind reads. *)
Theorem create_plot_returns_iff (data : dataframe) (plot_type : string) :
  (exists fig, create_plot data plot_type = Return fig)
  <-> (exists cols, required_columns plot_type = Some cols
         /\ forallb (has_column data) cols = true).
Proof.
  pose proof (create_plot_cases data plot_type) as Hcases.
  destruct (required_columns plot_type) as [cols|].
  - destruct (forallb (has_column data) cols) eqn:Hall.
    + destruct Hcases as (fig & Hfig & _). split; eauto.
    + destruct Hcases as [x Hx]. split.
      * intros [fig Hfig]. rewrite Hx in Hfig. discriminate.
      * intros (cols' & [= <-] & Hall'). congruence.
  - split.
    + intros [fig Hfig]. rewrite Hcases in Hfig. discriminate.
    + intros (cols & Hcols & _). discriminate.
Qed.

(** X3. Every figure [create_plot] returns is of the kind selected, is
    drawn over the frame it was given, and carries the dark layout of
    lines 130-134. *)
Theorem create_plot_figure (data : dataframe) (plot_type : string)
    (fig : figure) :
  create_plot data plot_type = Return fig ->
  kind_of plot_type = Some (fig_kind fig)
  /\ fig_data fig = data
  /\ fig_layout fig = Some dark_layout.
Proof.
  intros Hfig. pose proof (create_plot_cases data plot_type) as Hcases.
  destruct (required_columns plot_type) as [cols|]; [|congruence].
  destruct (forallb (has_column data) cols).
  - destruct Hcases as (fig' & Hfig' & Hk & Hd & Hl).
    assert (fig' = fig) as -> by congruence. auto.
  - destruct Hcases as [x Hx]. congruence.
Qed.

Lemma create_plot_figure_witness :
  exists fig, create_plot one_sample "表面圖" = Return fig
    /\ fig_kind fig = Surface /\ fig_data fig = one_sample
    /\ fig_layout fig = Some dark_layout.
Proof.
  assert (Hrun : exists fig, create_plot one_sample "表面圖" = Return fig).
  { eexists. vm_compute. reflexivity. }
  destruct Hrun as [fig Hfig]. exists fig.
  destruct (create_plot_figure one_sample "表面圖" fig Hfig) as (Hk & Hd & Hl).
  split; [exact Hfig|]. split; [|split; assumption].
  injection Hk as Hk. symmetry. exact Hk.
Defined.

(** X4. Each of the four kinds reads a [current] column: on a frame
    without one [create_plot] returns no figure, whatever the selector. A
    batch of the [runs] table of line 54 is such a frame. *)
Theorem create_plot_needs_current (data : dataframe) (plot_type : string) :
  has_column data "current" = false ->
  forall fig, create_plot data plot_type <> Return fig.
Proof.
  intros Hno fig Hfig.
  pose proof (create_plot_cases data plot_type) as Hcases.
  unfold required_columns in Hcases.
  repeat match type of Hcases with
         | context [String.eqb plot_type ?k] =>
             destruct (String.eqb plot_type k)
         end;
    cbn [forallb] in Hcases; rewrite ?Hno in Hcases;
    cbn [andb] in Hcases; rewrite ?andb_false_r in Hcases.
  all: try congruence.
  all: destruct Hcases as [x Hx]; congruence.
Qed.

Lemma create_plot_needs_current_witness :
  has_column (runs_batch [run_row 1; run_row 2]) "current" = false
  /\ forall plot_type fig,
       create_plot (runs_batch [run_row 1; run_row 2]) plot_type <> Return fig.
Proof.
  split; [reflexivity|]. intros plot_type.
  apply (create_plot_needs_current (runs_batch [run_row 1; run_row 2])
           plot_type).
  reflexivity.
Defined.

(** ** What the loader leaves alone *)

Section Keeps.
Context {T : Type} (view : state -> T).

Lemma keeps_mret {A} (a : A) : keeps view (mret a : M A).
Proof. intros s. reflexivity. Qed.

Lemma keeps_raising {A} (x : exn) : keeps view (raise x : M A).
Proof. intros s. reflexivity. Qed.

Lemma keeps_lifted {A} (o : outcome A) : keeps view (lift o).
Proof. intros s. reflexivity. Qed.

Lemma keeps_getting {A} (f : state -> A) : keeps view (gets f).
Proof. intros s. reflexivity. Qed.

Lemma keeps_modifying (f : state -> state) :
  (forall s, view (f s) = view s) -> keeps view (modify f).
Proof. intros Hf s. apply Hf. Qed.

Lemma keeps_binding {A B} (m : M A) (k : A -> M B) :
  keeps view m -> (forall a, keeps view (k a)) -> keeps view (m ≫= k).
Proof.
  intros Hm Hk s. rewrite run_bind. specialize (Hm s).
  destruct (m s) as [[a|x] s']; cbn in *; [rewrite Hk|]; exact Hm.
Qed.

(** The same when the first computation always returns the one value. *)
Lemma keeps_binding_value {A B} (m : M A) (k : A -> M B) (a : A) :
  keeps view m -> (forall s, fst (m s) = Return a) -> keeps view (k a) ->
  keeps view (m ≫= k).
Proof.
  intros Hm Ha Hk s. rewrite run_bind. specialize (Hm s). specialize (Ha s).
  destruct (m s) as [[a'|x] s']; cbn in *; [|discriminate].
  injection Ha as ->. rewrite Hk. exact Hm.
Qed.

Lemma keeps_mapping {A B} (f : A -> B) (m : M A) :
  keeps view m -> keeps view (f <$> m).
Proof.
  intros Hm s. specialize (Hm s). unfold fmap, M_fmap, bind, ret.
  destruct (m s) as [[a|x] s']; exact Hm.
Qed.

(** What comes after a computation does not matter when it keeps the view. *)
Lemma keeps_after {A B} (m : M A) (k : A -> M B) (s : state) :
  (forall a, keeps view (k a)) -> view (snd ((m ≫= k) s)) = view (snd (m s)).
Proof.
  intros Hk. rewrite run_bind.
  destruct (m s) as [[a|x] s']; cbn; [apply Hk|reflexivity].
Qed.

End Keeps.

Ltac keeps_step :=
  match goal with
  | |- keeps _ (_ ≫= _) => apply keeps_binding; [|intros ?]
  | |- keeps _ (_ <$> _) => apply keeps_mapping
  | |- keeps _ (mret _) => apply keeps_mret
  | |- keeps _ (raise _) => apply keeps_raising
  | |- keeps _ (lift _) => apply keeps_lifted
  | |- keeps _ (gets _) => apply keeps_getting
  | |- keeps _ (modify _) => apply keeps_modifying; intros ?; reflexivity
  | |- keeps _ (match ?x with _ => _ end) => destruct x
  end.

Lemma session_set_other (k k' : string) (v : sval) :
  k <> k' -> keeps (fun s => session_state s !! k') (session_set k v).
Proof. intros Hne s. cbn. apply lookup_insert_ne. exact Hne. Qed.

(** X5. [qcodes_integration] writes the session under the keys [df] and
    [parameters] only: every other session key keeps its value, whether
    the run returns or raises. *)
Theorem qcodes_integration_footprint
    (load_by_id : Z -> outcome dataset) (u : user) (s : state) (k : string) :
  k <> "df" -> k <> "parameters" ->
  session_state (snd (qcodes_integration load_by_id u s)) !! k
  = session_state s !! k.
Proof.
  intros Hdf Hpar. revert s.
  change (keeps (fun s => session_state s !! k)
                (qcodes_integration load_by_id u)).
  unfold qcodes_integration, number_input, button, radio, line_branch,
    heat_branch, selectbox, current_data_block.
  repeat first [apply session_set_other; congruence | keeps_step].
Qed.

Lemma qcodes_integration_footprint_witness :
  session_state
    (snd (qcodes_integration only_run_2 loads_run_2 stale_session))
    !! "current_data"
  = Some (SFrame (reset_index iv_frame)).
Proof.
  rewrite (qcodes_integration_footprint only_run_2 loads_run_2 stale_session
             "current_data"); [reflexivity|discriminate|discriminate].
Defined.

Lemma run_bind_return {A B} (m : M A) (k : A -> M B) (s s1 : state) (a : A) :
  m s = (Return a, s1) -> (m ≫= k) s = k a s1.
Proof. intros Hm. rewrite run_bind, Hm. reflexivity. Qed.

Lemma button_value (label : string) (u : user) (s : state) :
  fst (button label u s) = Return (load_clicked u).
Proof. reflexivity. Qed.

(** The part of the loader after the load button (lines 220-253) reads
    the session and never writes it. *)
Ltac loader_keeps :=
  unfold number_input, button, radio, line_branch, heat_branch, selectbox,
    current_data_block;
  repeat keeps_step.

(** X6. A run in which the load button is not clicked leaves the whole
    session state as it was, whatever it draws and whether or not it
    raises. *)
Theorem qcodes_integration_idle_session
    (load_by_id : Z -> outcome dataset) (u : user) (s : state) :
  load_clicked u = false ->
  session_state (snd (qcodes_integration load_by_id u s)) = session_state s.
Proof.
  intros Hclick. revert s.
  change (keeps session_state (qcodes_integration load_by_id u)).
  unfold qcodes_integration.
  apply keeps_binding; [loader_keeps|intros _].
  apply keeps_binding; [loader_keeps|intros run_id].
  apply (keeps_binding_value _ _ _ false); [loader_keeps| |].
  - intros s. rewrite button_value, Hclick. reflexivity.
  - loader_keeps.
Qed.

Lemma qcodes_integration_idle_session_witness :
  load_clicked looks_on = false
  /\ session_state (snd (qcodes_integration only_run_2 looks_on loaded))
     = session_state loaded.
Proof.
  split; [reflexivity|].
  apply (qcodes_integration_idle_session only_run_2 looks_on loaded).
  reflexivity.
Defined.

Lemma split_comma_cons (c : ascii) (s : string) :
  split_comma (String c s)
  = if Ascii.eqb c ","
    then "" :: split_comma s
    else match split_comma s with
         | h :: t => String c h :: t
         | [] => [String c ""]
         end.
Proof. reflexivity. Qed.

Lemma split_comma_nonempty (s : string) : split_comma s <> [].
Proof.
  destruct s as [|c s]; [discriminate|].
  rewrite split_comma_cons.
  destruct (Ascii.eqb c ","); [discriminate|].
  destruct (split_comma s); discriminate.
Qed.

Lemma join_split_comma (s : string) : join_comma (split_comma s) = s.
Proof.
  induction s as [|c s IH]; [reflexivity|].
  rewrite split_comma_cons.
  pose proof (split_comma_nonempty s) as Hne.
  destruct (Ascii.eqb c ",") eqn:Hc.
  - apply Ascii.eqb_eq in Hc. subst c.
    destruct (split_comma s) as [|f rest]; [congruence|].
    cbn in *. rewrite IH. reflexivity.
  - destruct (split_comma s) as [|f rest]; [congruence|].
    destruct rest as [|g rest]; cbn in *; rewrite <- IH; reflexivity.
Qed.

(** X7. When the lookup succeeds, the table builds and the parameter
    string is there, the table and the parameter list are in the session
    afterwards, also when the rest of the run then raises. The stored list
    is [split(",")] of the parameter string: it is never empty and joins
    back, with commas, to that string. *)
Theorem qcodes_integration_load_stores
    (load_by_id : Z -> outcome dataset) (u : user) (s : state) (ds : dataset)
    (fr : indexed_frame) (names : string) :
  load_clicked u = true ->
  load_by_id (default 1 (typed_run_id u)) = Return ds ->
  to_pandas_dataframe ds = Return fr ->
  parameters ds = Some names ->
  let params := split_comma names in
  session_state (snd (qcodes_integration load_by_id u s))
  = <["parameters" := SList params]>
      (<["df" := SFrame (reset_index fr)]> (session_state s))
  /\ params <> []
  /\ join_comma params = names.
Proof.
  intros Hclick Hload Hfr Hnames params. subst params.
  split; [|split; [apply split_comma_nonempty|apply join_split_comma]].
  unfold qcodes_integration.
  rewrite (run_bind_return _ _ s
             (render (SidebarHeader "QCoDeS 控制接口") s) tt) by reflexivity.
  erewrite run_bind_return by reflexivity.
  erewrite run_bind_return by reflexivity.
  rewrite Hclick.
  rewrite (keeps_after session_state) by (intros ?; loader_keeps).
  rewrite Hload, run_lift_return, Hfr, run_lift_return, Hnames.
  reflexivity.
Qed.

Lemma qcodes_integration_load_stores_witness :
  load_clicked loads_run_2 = true
  /\ only_run_2 (default 1 (typed_run_id loads_run_2)) = Return iv_sweep
  /\ session_state (snd (qcodes_integration only_run_2 loads_run_2 fresh))
       !! "parameters" = Some (SList ["voltage"; "current"]).
Proof.
  split; [reflexivity|]. split; [reflexivity|].
  destruct (qcodes_integration_load_stores only_run_2 loads_run_2 fresh
              iv_sweep iv_frame "voltage,current" eq_refl eq_refl eq_refl
              eq_refl) as (Hs & _ & _).
  rewrite Hs. apply lookup_insert_eq.
Defined.

(** X8. With no table in the session (the key [df] or the key
    [parameters] is missing), no [current_data] and no click, the run
    returns normally and shows the three load widgets and nothing else. *)
Theorem qcodes_integration_nothing_loaded
    (load_by_id : Z -> outcome dataset) (u : user) (s : state) :
  load_clicked u = false ->
  session_state s !! "df" = None \/ session_state s !! "parameters" = None ->
  session_state s !! "current_data" = None ->
  qcodes_integration load_by_id u s
  = (Return tt, fold_left (fun st e => render e st) (load_widgets u) s).
Proof.
  intros Hclick Hnone Hcur.
  unfold qcodes_integration, number_input, button, current_data_block.
  run. rewrite Hclick. cbn.
  destruct Hnone as [Hnone|Hnone].
  - rewrite Hnone. cbn. rewrite Hcur. reflexivity.
  - rewrite Hnone. destruct (session_state s !! "df"); cbn;
      rewrite Hcur; reflexivity.
Qed.

Lemma qcodes_integration_nothing_loaded_witness :
  qcodes_integration only_run_2 looks_on fresh
  = (Return tt,
     fold_left (fun st e => render e st) (load_widgets looks_on) fresh).
Proof.
  apply (qcodes_integration_nothing_loaded only_run_2 looks_on fresh).
  - reflexivity.
  - left. reflexivity.
  - reflexivity.
Defined.

(** X9. A table left under [current_data] while no table is loaded makes
    the run fail: the table is shown, then line 253 reads the local
    [x_param], which no branch has bound, and raises
    [UnboundLocalError]. *)
Theorem qcodes_integration_stale_current_data
    (load_by_id : Z -> outcome dataset) (u : user) (s : state)
    (df : dataframe) :
  load_clicked u = false ->
  session_state s !! "df" = None \/ session_state s !! "parameters" = None ->
  session_state s !! "current_data" = Some (SFrame df) ->
  let r := qcodes_integration load_by_id u s in
  fst r = Raise (UnboundLocalError "x_param")
  /\ ui (snd r) = (ui s ++ load_widgets u ++ [DataframeView (SFrame df)])%list.
Proof.
  intros Hclick Hnone Hcur r. subst r.
  unfold qcodes_integration, number_input, button, current_data_block.
  run. rewrite Hclick. cbn.
  destruct Hnone as [Hnone|Hnone].
  - rewrite Hnone. cbn. rewrite Hcur. cbn.
    split; [reflexivity|]. rewrite <- !app_assoc. reflexivity.
  - rewrite Hnone. destruct (session_state s !! "df"); cbn;
      rewrite Hcur; cbn; (split; [reflexivity|]);
      rewrite <- !app_assoc; reflexivity.
Qed.

Lemma qcodes_integration_stale_current_data_witness :
  fst (qcodes_integration only_run_2 looks_on stale_session)
  = Raise (UnboundLocalError "x_param").
Proof.
  destruct (qcodes_integration_stale_current_data only_run_2 looks_on
              stale_session (reset_index iv_frame)
              eq_refl (or_introl eq_refl) eq_refl) as [Hr _].
  exact Hr.
Defined.

Lemma truthy_some (x : string) : x <> "" -> truthy (Some x) = true.
Proof.
  intros Hne. unfold truthy. apply String.eqb_neq in Hne. rewrite Hne.
  reflexivity.
Qed.

(** X10. With a loaded table, the heat-map kind selected and X, Y and the
    colour set to non-empty names, of which X and Y are columns of the
    table and the colour names a column with values [series], the run
    draws one scatter chart over the table, at those X and Y, coloured by
    the values [series] on the Viridis scale. *)
Theorem qcodes_integration_heat_map
    (load_by_id : Z -> outcome dataset) (u : user) (s : state)
    (df : dataframe) (params : list string) (x y c : string)
    (series : list cell) :
  table_loaded load_by_id u s df params ->
  session_state s !! "current_data" = None ->
  chosen u "選擇圖表類型" ["折線圖"; "熱力圖"] 0 = Some "熱力圖" ->
  chosen u "選擇 X 軸變數" params 0 = Some x ->
  chosen u "選擇 Y 軸變數" params (y_index params) = Some y ->
  chosen u "選擇顏色對應變數" params (color_index params) = Some c ->
  x <> "" -> y <> "" -> c <> "" ->
  has_column df x = true -> has_column df y = true ->
  df_column df c = Some series ->
  let r := qcodes_integration load_by_id u s in
  exists fig,
    fst r = Return tt
    /\ ui (snd r) = (ui s ++ heat_run u params fig)%list
    /\ fig_kind fig = Scatter
    /\ fig_data fig = df
    /\ fig_x fig = Some x /\ fig_y fig = Some y
    /\ fig_color fig = Some (ColorSeries series)
    /\ fig_color_scale fig = Some "Viridis".
Proof.
  intros Hloaded Hcur Hkind Hx Hy Hc Hxne Hyne Hcne Hhx Hhy Hseries r.
  subst r.
  pose proof (truthy_some x Hxne) as Htx.
  pose proof (truthy_some y Hyne) as Hty.
  pose proof (truthy_some c Hcne) as Htc.
  unfold qcodes_integration, number_input, button, radio, heat_branch,
    selectbox, current_data_block, session_set, px_scatter, px_columns,
    getitem in *.
  destruct Hloaded as [(Hclick & Hdf & Hparams)
                      |(Hclick & ds & fr & names & Hload & Hfr & Hnames
                        & Hdf' & Hps)].
  - run. rewrite Hclick. cbn. rewrite Hdf, Hparams. cbn.
    rewrite Hkind. cbn. rewrite Hx, Hy, Hc. rewrite Htx, Hty, Htc. cbn.
    rewrite Hseries. cbn. rewrite Hhx, Hhy. cbn. rewrite Hcur. cbn.
    eexists. split; [reflexivity|].
    split; [unfold heat_run, load_widgets; rewrite <- !app_assoc; reflexivity|].
    cbn. repeat split.
  - run. rewrite Hclick, Hload. cbn. rewrite Hfr. cbn. rewrite Hnames. cbn.
    rewrite <- Hdf', <- Hps.
    rewrite lookup_insert_ne by discriminate. rewrite !lookup_insert_eq. cbn.
    rewrite Hkind. cbn. rewrite Hx, Hy, Hc. rewrite Htx, Hty, Htc. cbn.
    rewrite Hseries. cbn. rewrite Hhx, Hhy. cbn.
    rewrite !lookup_insert_ne by discriminate. rewrite Hcur. cbn.
    eexists. split; [reflexivity|].
    split; [unfold heat_run, load_widgets; rewrite <- !app_assoc; reflexivity|].
    cbn. repeat split.
Qed.

Lemma qcodes_integration_heat_map_witness :
  exists fig,
    fst (qcodes_integration only_gate_map loads_heat_map fresh) = Return tt
    /\ fig_kind fig = Scatter
    /\ fig_x fig = Some "gate1" /\ fig_y fig = Some "gate2"
    /\ fig_color fig
       = Some (ColorSeries [CReal (1 # 100); CReal (2 # 100);
                            CReal (3 # 100); CReal (5 # 100)]).
Proof.
  assert (Hloaded : table_loaded only_gate_map loads_heat_map fresh
                      (reset_index gate_frame)
                      ["gate1"; "gate2"; "current"]).
  { right. split; [reflexivity|].
    exists gate_map, gate_frame, "gate1,gate2,current". repeat split. }
  destruct (qcodes_integration_heat_map only_gate_map loads_heat_map fresh
              (reset_index gate_frame)
              ["gate1"; "gate2"; "current"] "gate1" "gate2" "current"
              [CReal (1 # 100); CReal (2 # 100); CReal (3 # 100);
               CReal (5 # 100)]
              Hloaded eq_refl eq_refl eq_refl eq_refl eq_refl
              ltac:(discriminate) ltac:(discriminate) ltac:(discriminate)
              eq_refl eq_refl eq_refl)
    as (fig & Hr & _ & Hk & _ & Hx & Hy & Hc & _).
  exists fig. repeat split; assumption.
Defined.



(** ** The schema initializer and the entry point *)

Lemma init_database_run (s : state) :
  exists s1, init_database s = (Return tt, s1)
    /\ db_log s1 = (db_log s ++ init_events)%list
    /\ cache s1 = cache s /\ now s1 = now s
    /\ session_state s1 = session_state s /\ ui s1 = ui s.
Proof.
  unfold init_database. rewrite load_QCODES_DB_PATH, run_lift_return.
  unfold sqlite3_connect, execute_create_runs, commit, close, the_db,
    init_events.
  run.
  destruct (files s !! QCODES_DB_PATH) as [db|] eqn:Hf; cbn.
  - rewrite Hf; cbn.
    destruct (db !! "runs"); cbn; eexists; (split; [reflexivity|]); cbn;
      rewrite <- !app_assoc; repeat split.
  - rewrite lookup_insert_eq. cbn. rewrite lookup_empty. cbn.
    eexists. split; [reflexivity|]. cbn. rewrite <- !app_assoc. repeat split.
Qed.

(** X12. One call of [init_database] opens one connection to the path of
    line 41, sends the one CREATE statement, commits and closes, in that
    order; every table the file held is still there unchanged; the cache,
    the clock, the session and the page are not touched. *)
Theorem init_database_footprint (s : state) :
  let s1 := snd (init_database s) in
  db_log s1 = (db_log s ++ init_events)%list
  /\ (forall name t, the_db QCODES_DB_PATH s !! name = Some t ->
        the_db QCODES_DB_PATH s1 !! name = Some t)
  /\ cache s1 = cache s /\ now s1 = now s
  /\ session_state s1 = session_state s /\ ui s1 = ui s.
Proof.
  destruct (init_database_run s) as (s1 & Hrun & Hlog & Hc & Hn & Hs & Hu).
  destruct (init_database_files s) as [_ Hfiles].
  rewrite Hrun in *. cbn in *.
  split; [exact Hlog|]. split; [|auto].
  intros name t Ht. unfold the_db at 1. rewrite Hfiles, lookup_insert_eq. cbn.
  destruct (decide (name = "runs")) as [->|Hne].
  - rewrite ensure_runs_lookup, Ht. reflexivity.
  - rewrite ensure_runs_other by exact Hne. exact Ht.
Qed.

(** ** The poll of lines 69-75 in globals that bind [DB_PATH] *)

Section Polls.

Variable g : gmap string pyobj.
Variable p : string.
Hypothesis Hbound : g !! "DB_PATH" = Some (PyStr p).

Lemma fetch_live_data_body_run (s : state) (t : table) (i : nat)
    (ids : list Z) (w : Z) :
  runs_table s p t i ids ->
  exists s1,
    fetch_live_data_body g w s
    = (Return (batch_after t i w, watermark_after ids w), s1)
    /\ db_log s1 = (db_log s ++ poll_events p w)%list
    /\ files s1 = files s /\ cache s1 = cache s /\ now s1 = now s.
Proof.
  intros ((db & Hfile & Hruns) & Hid & Hints).
  pose proof (fetch_live_data_body_bound g p Hbound s db t i Hfile Hruns Hid
                ids Hints w) as Hfst.
  revert Hfst.
  unfold fetch_live_data_body, load_global. rewrite Hbound.
  unfold sqlite3_connect, read_sql_runs_after, close, the_db, poll_events.
  unfold mbind, mret, M_bind, M_ret, bind, ret, modify, gets, lift. cbn.
  rewrite Hfile. cbn. rewrite Hfile. cbn. rewrite Hruns. cbn. rewrite Hid.
  fold (rows_after i w (tbl_rows t)). fold (batch_after t i w).
  destruct (df_empty (batch_after t i w)); cbn.
  - intros [= <-]. eexists. split; [reflexivity|]. cbn.
    rewrite <- !app_assoc. repeat split.
  - destruct (getitem (batch_after t i w) "id") as [cells|x]; cbn;
      [|discriminate].
    destruct (series_max cells) as [m|x]; cbn; [|discriminate].
    intros [= <-]. eexists. split; [reflexivity|]. cbn.
    rewrite <- !app_assoc. repeat split.
Qed.

End Polls.

Lemma filter_ltb_above (w : Z) (ids : list Z) :
  Forall (fun z => w < z) (List.filter (Z.ltb w) ids).
Proof.
  apply Forall_forall. intros z Hz.
  apply list_elem_of_In, filter_In in Hz as [_ Hz]. apply Z.ltb_lt, Hz.
Qed.

(** X14. In globals that bind [DB_PATH] to a file whose [runs] table has
    integer ids, a poll connects, sends the one SELECT and closes; the
    files are as before; the batch holds exactly the stored rows whose id
    is above the watermark, in stored order, so in ascending id when the
    table is stored that way. *)
Theorem fetch_live_data_body_batch
    (g : gmap string pyobj) (p : string) (s : state) (t : table) (i : nat)
    (ids : list Z) (w : Z) :
  g !! "DB_PATH" = Some (PyStr p) ->
  runs_table s p t i ids ->
  let r := fetch_live_data_body g w s in
  exists batch w',
    fst r = Return (batch, w')
    /\ df_rows batch = rows_after i w (tbl_rows t)
    /\ id_cells i (df_rows batch) = map CInt (List.filter (Z.ltb w) ids)
    /\ Forall (fun z => w < z) (List.filter (Z.ltb w) ids)
    /\ (StronglySorted Z.lt ids ->
        StronglySorted Z.lt (List.filter (Z.ltb w) ids))
    /\ db_log (snd r) = (db_log s ++ poll_events p w)%list
    /\ files (snd r) = files s.
Proof.
  intros Hbound Hruns r. subst r.
  destruct (fetch_live_data_body_run g p Hbound s t i ids w Hruns)
    as (s1 & Hrun & Hlog & Hfiles & _).
  destruct Hruns as (_ & _ & Hints).
  rewrite Hrun. cbn. exists (batch_after t i w), (watermark_after ids w).
  split; [reflexivity|]. split; [reflexivity|].
  split; [apply id_cells_after, Hints|].
  split; [apply filter_ltb_above|].
  split; [apply filter_ltb_sorted|]. split; assumption.
Qed.

Lemma the_runs_table : runs_table three_runs QCODES_DB_PATH the_runs 0 [1; 2; 3].
Proof.
  split; [|split; reflexivity].
  exists {[ "runs" := the_runs ]}. split; reflexivity.
Qed.

Lemma fetch_live_data_body_batch_witness :
  exists w',
    fst (fetch_live_data_body patched_globals 1 three_runs)
    = Return (runs_batch (map run_row [2; 3]), w').
Proof.
  destruct (fetch_live_data_body_batch patched_globals QCODES_DB_PATH
              three_runs the_runs 0 [1; 2; 3] 1 eq_refl the_runs_table)
    as (batch & w' & Hr & Hrows & _).
  exists w'. rewrite Hr. destruct batch as [cols rows]. cbn in Hrows.
  subst rows. revert Hr. vm_compute. intros [= <- <-]. reflexivity.
Defined.

Lemma watermark_after_spec (ids : list Z) (w : Z) :
  let above := List.filter (Z.ltb w) ids in
  let w' := watermark_after ids w in
  (above = [] -> w' = w)
  /\ (above <> [] -> w' ∈ above /\ w < w')
  /\ Forall (fun z => z <= w') above
  /\ w <= w'.
Proof.
  intros above w'. subst w'. unfold watermark_after. fold above.
  pose proof (filter_ltb_above w ids) as Habove. fold above in Habove.
  destruct above as [|z zs].
  - split; [reflexivity|]. split; [congruence|]. split; [constructor|lia].
  - destruct (max_of_upper zs z) as [Hz Hzs].
    pose proof (max_of_member zs z) as Hin.
    assert (Hlt : w < max_of z zs).
    { rewrite Forall_forall in Habove. apply Habove, Hin. }
    split; [discriminate|]. split; [auto|].
    split; [constructor; assumption|lia].
Qed.

(** X15. In the same setting the watermark a poll returns is the input
    watermark when no stored id is above it, and otherwise the largest id
    of the batch, which is above the input: a poll never moves the
    watermark back. *)
Theorem fetch_live_data_body_watermark
    (g : gmap string pyobj) (p : string) (s : state) (t : table) (i : nat)
    (ids : list Z) (w : Z) :
  g !! "DB_PATH" = Some (PyStr p) ->
  runs_table s p t i ids ->
  exists batch w',
    fst (fetch_live_data_body g w s) = Return (batch, w')
    /\ w <= w'
    /\ (df_rows batch = [] -> w' = w)
    /\ (df_rows batch <> [] ->
        w < w' /\ CInt w' ∈ id_cells i (df_rows batch))
    /\ Forall (fun c => forall z, c = CInt z -> z <= w')
         (id_cells i (df_rows batch)).
Proof.
  intros Hbound Hruns.
  destruct (fetch_live_data_body_run g p Hbound s t i ids w Hruns)
    as (s1 & Hrun & _).
  destruct Hruns as (_ & _ & Hints).
  rewrite Hrun. cbn. exists (batch_after t i w), (watermark_after ids w).
  pose proof (id_cells_after i w (tbl_rows t) ids Hints) as Hcells.
  destruct (watermark_after_spec ids w) as (Hnone & Hsome & Hupper & Hle).
  split; [reflexivity|]. split; [exact Hle|].
  change (df_rows (batch_after t i w)) with (rows_after i w (tbl_rows t)).
  split; [|split].
  - intros Hemp. apply Hnone. rewrite Hemp in Hcells. cbn in Hcells.
    destruct (List.filter (Z.ltb w) ids); [reflexivity|discriminate].
  - intros Hne.
    assert (Hne' : List.filter (Z.ltb w) ids <> []).
    { intros Heq. rewrite Heq in Hcells. apply Hne.
      destruct (rows_after i w (tbl_rows t)); [reflexivity|discriminate]. }
    destruct (Hsome Hne') as [Hin Hlt]. split; [exact Hlt|].
    rewrite Hcells. apply list_elem_of_fmap. eauto.
  - rewrite Hcells. apply Forall_forall. intros c Hc z ->.
    apply list_elem_of_fmap in Hc as (z' & [= ->] & Hz').
    rewrite Forall_forall in Hupper. apply Hupper, Hz'.
Qed.

Lemma fetch_live_data_body_watermark_witness :
  exists batch w',
    fst (fetch_live_data_body patched_globals 1 three_runs)
    = Return (batch, w')
    /\ 1 < w' /\ CInt w' ∈ id_cells 0 (df_rows batch).
Proof.
  destruct (fetch_live_data_body_watermark patched_globals QCODES_DB_PATH
              three_runs the_runs 0 [1; 2; 3] 1 eq_refl the_runs_table)
    as (batch & w' & Hr & _ & _ & Hsome & _).
  exists batch, w'. split; [exact Hr|]. apply Hsome.
  revert Hr. vm_compute. intros [= <- _]. discriminate.
Defined.

Lemma filter_none {A} (f : A -> bool) (l : list A) :
  (forall x, In x l -> f x = false) -> List.filter f l = [].
Proof.
  induction l as [|a l IH]; [reflexivity|].
  intros Hall. cbn. rewrite (Hall a) by (left; reflexivity).
  apply IH. intros x Hx. apply Hall. right. exact Hx.
Qed.

Lemma nothing_above_watermark (ids : list Z) (w : Z) :
  List.filter (Z.ltb (watermark_after ids w)) ids = [].
Proof.
  destruct (watermark_after_spec ids w) as (_ & _ & Hupper & Hle).
  rewrite Forall_forall in Hupper.
  apply filter_none. intros z Hz. apply Z.ltb_ge.
  destruct (Z.ltb w z) eqn:Hwz.
  - apply Hupper, list_elem_of_In, filter_In. split; assumption.
  - apply Z.ltb_ge in Hwz. lia.
Qed.

(** X16. In the same setting, polling again with the watermark a poll
    returned, the table unchanged, gives an empty batch and the same
    watermark: no run is delivered twice. *)
Theorem fetch_live_data_body_repoll
    (g : gmap string pyobj) (p : string) (s : state) (t : table) (i : nat)
    (ids : list Z) (w : Z) :
  g !! "DB_PATH" = Some (PyStr p) ->
  runs_table s p t i ids ->
  exists batch w' s1 batch',
    fetch_live_data_body g w s = (Return (batch, w'), s1)
    /\ fst (fetch_live_data_body g w' s1) = Return (batch', w')
    /\ df_rows batch' = [].
Proof.
  intros Hbound Hruns.
  destruct (fetch_live_data_body_run g p Hbound s t i ids w Hruns)
    as (s1 & Hrun & _ & Hfiles & _).
  assert (Hruns1 : runs_table s1 p t i ids).
  { destruct Hruns as (Hdb & Hid & Hints). rewrite <- Hfiles in Hdb.
    split; [exact Hdb|]. split; assumption. }
  destruct (fetch_live_data_body_run g p Hbound s1 t i ids
              (watermark_after ids w) Hruns1) as (s2 & Hrun2 & _).
  destruct Hruns as (_ & _ & Hints).
  pose proof (id_cells_after i (watermark_after ids w) (tbl_rows t) ids Hints)
    as Hcells.
  rewrite nothing_above_watermark in Hcells.
  assert (Hempty : rows_after i (watermark_after ids w) (tbl_rows t) = []).
  { destruct (rows_after i (watermark_after ids w) (tbl_rows t));
      [reflexivity|discriminate]. }
  assert (Hsame : watermark_after ids (watermark_after ids w)
                  = watermark_after ids w).
  { unfold watermark_after at 1. rewrite nothing_above_watermark.
    reflexivity. }
  exists (batch_after t i w), (watermark_after ids w), s1,
    (batch_after t i (watermark_after ids w)).
  split; [exact Hrun|]. rewrite Hrun2, Hsame.
  split; [reflexivity|exact Hempty].
Qed.

Lemma fetch_live_data_body_repoll_witness :
  exists batch w' s1 batch',
    fetch_live_data_body patched_globals 1 three_runs
    = (Return (batch, w'), s1)
    /\ fst (fetch_live_data_body patched_globals w' s1) = Return (batch', w')
    /\ df_rows batch' = [].
Proof.
  exact (fetch_live_data_body_repoll patched_globals QCODES_DB_PATH
           three_runs the_runs 0 [1; 2; 3] 1 eq_refl the_runs_table).
Defined.

(** X17. In globals that bind [DB_PATH], a poll of a file without a
    [runs] table raises [DatabaseError]; the connection opened at line 69
    is not closed, since line 73 is not reached; and connecting has
    created the file when there was none. *)
Theorem fetch_live_data_body_no_table
    (g : gmap string pyobj) (p : string) (s : state) (w : Z) :
  g !! "DB_PATH" = Some (PyStr p) ->
  the_db p s !! "runs" = None ->
  let r := fetch_live_data_body g w s in
  fst r = Raise (DatabaseError "no such table: runs")
  /\ db_log (snd r)
     = (db_log s ++ [EvConnect p; EvExecute p (SelectRunsAfter w)])%list
  /\ is_Some (files (snd r) !! p)
  /\ forall q, q <> p -> files (snd r) !! q = files s !! q.
Proof.
  intros Hbound Hnone r. subst r.
  unfold fetch_live_data_body, load_global. rewrite Hbound.
  unfold sqlite3_connect, read_sql_runs_after, close, the_db in *.
  unfold mbind, mret, M_bind, M_ret, bind, ret, modify, gets, lift, raise.
  cbn.
  destruct (files s !! p) as [db|] eqn:Hfile; cbn in *.
  - rewrite Hfile. cbn. rewrite Hnone. cbn.
    split; [reflexivity|]. split; [rewrite <- !app_assoc; reflexivity|].
    split; [rewrite Hfile; eauto|]. reflexivity.
  - rewrite lookup_insert_eq. cbn. rewrite lookup_empty. cbn.
    split; [reflexivity|]. split; [rewrite <- !app_assoc; reflexivity|].
    split; [rewrite lookup_insert_eq; eauto|].
    intros q Hq. apply lookup_insert_ne. congruence.
Qed.

Lemma fetch_live_data_body_no_table_witness :
  the_db QCODES_DB_PATH fresh !! "runs" = None
  /\ fst (fetch_live_data_body patched_globals 0 fresh)
     = Raise (DatabaseError "no such table: runs")
  /\ files fresh !! QCODES_DB_PATH = None
  /\ is_Some (files (snd (fetch_live_data_body patched_globals 0 fresh))
                !! QCODES_DB_PATH).
Proof.
  split; [reflexivity|].
  destruct (fetch_live_data_body_no_table patched_globals QCODES_DB_PATH
              fresh 0 eq_refl eq_refl) as (Hr & _ & Hf & _).
  split; [exact Hr|]. split; [reflexivity|exact Hf].
Defined.

(** X18. In globals that bind [DB_PATH], under the decorator of line 62:
    after a poll that returned, a call with the same watermark inside 300
    seconds gives the same pair and leaves the state, SQLite log included,
    as it finds it, whatever the table holds by then; from 300 seconds on
    the call polls the table again. *)
Theorem fetch_live_data_in_window
    (g : gmap string pyobj) (p : string) (s : state) (t : table) (i : nat)
    (ids : list Z) (w : Z) :
  g !! "DB_PATH" = Some (PyStr p) ->
  runs_table s p t i ids ->
  cache s !! w = None ->
  exists v s1,
    fetch_live_data_in g w s = (Return v, s1)
    /\ (forall s2, cache s2 !! w = cache s1 !! w ->
          now s2 < now s + 300 ->
          fetch_live_data_in g w s2 = (Return v, s2))
    /\ (forall s2, cache s2 !! w = cache s1 !! w ->
          now s + 300 <= now s2 ->
          fst (fetch_live_data_in g w s2)
          = fst (fetch_live_data_body g w s2)).
Proof.
  intros Hbound Hruns Hmiss.
  destruct (fetch_live_data_body_run g p Hbound s t i ids w Hruns)
    as (s0 & Hrun & _ & _ & _ & Hnow).
  pose proof (cache_data_stores 300 (fetch_live_data_body g) w s s0 _
                Hmiss Hrun) as Hstored.
  unfold fetch_live_data_in.
  exists (batch_after t i w, watermark_after ids w),
    (snd (cache_data 300 (fetch_live_data_body g) w s)).
  split; [|split].
  - unfold cache_data. rewrite Hmiss, Hrun. reflexivity.
  - intros s2 Hc Hin. rewrite Hstored in Hc.
    apply (cache_data_hit 300 _ w s2 _ Hc). cbn. lia.
  - intros s2 Hc Hout. rewrite Hstored in Hc.
    apply (cache_data_expired 300 _ w s2 _ Hc). cbn. lia.
Qed.

Lemma fetch_live_data_in_window_witness :
  exists v s1,
    fetch_live_data_in patched_globals 1 three_runs = (Return v, s1)
    /\ fetch_live_data_in patched_globals 1 (run_4_recorded 100 s1)
       = (Return v, run_4_recorded 100 s1).
Proof.
  destruct (fetch_live_data_in_window patched_globals QCODES_DB_PATH
              three_runs the_runs 0 [1; 2; 3] 1 eq_refl the_runs_table
              eq_refl) as (v & s1 & Hrun & Hin & _).
  exists v, s1. split; [exact Hrun|].
  apply Hin; [reflexivity|]. cbn. lia.
Defined.

(** The module's own poll is [fetch_live_data_in] at the module globals. *)
Lemma fetch_live_data_in_module :
  fetch_live_data = fetch_live_data_in module_globals.
Proof. reflexivity. Qed.
